(** * dashboard-maps: the weather hook, the recolor pass, the drawing workflow,
      the data source sidebar and the timeline slider

    A shallow embedding of the TypeScript sources.  React state is passed
    explicitly: every hook callback becomes a function of the state it closes
    over, and what a callback asks the outside world for (the clock, the
    network, the random generator) is an argument of the function.

    JavaScript numbers that carry measurements are exact rationals ([Q]);
    hour indices, lengths and millisecond timestamps are integers ([Z]).
    Rounding of IEEE doubles, NaN and signed zeros are outside this model. *)

From Stdlib Require Import ZArith QArith Qround Lia.
From stdpp Require Import gmap strings list list_numbers pretty.

(** ** JavaScript built-ins used by the sources *)

Module Js.

(** [Array.prototype.slice(start, end)] on integer arguments: a negative
    bound counts from the end of the array, both bounds are cut to
    [0 .. length], and an inverted interval is empty. *)
Definition slice {A} (l : list A) (start end_ : Z) : list A :=
  let len := Z.of_nat (length l) in
  let k := if (start <? 0)%Z then Z.max (len + start) 0 else Z.min start len in
  let final := if (end_ <? 0)%Z then Z.max (len + end_) 0 else Z.min end_ len in
  take (Z.to_nat (final - k)) (drop (Z.to_nat k) l).

(** [Array.prototype.filter] with a callback that also reads the index. *)
Fixpoint filter_from {A} (f : A -> nat -> bool) (i : nat) (l : list A) : list A :=
  match l with
  | [] => []
  | x :: l' => if f x i then x :: filter_from f (S i) l' else filter_from f (S i) l'
  end.

Definition filteri {A} (f : A -> nat -> bool) (l : list A) : list A :=
  filter_from f 0 l.

(** [Array.prototype.join(sep)] on strings. *)
Definition join (sep : string) (l : list string) : string :=
  String.concat sep l.

(** [Math.round]: the nearest integer, halves upwards. *)
Definition round (x : Q) : Q :=
  inject_Z (Qfloor (x + (1 # 2))).

(** [x < y] on numbers, as a boolean. *)
Definition lt (x y : Q) : bool :=
  if Qlt_le_dec x y then true else false.

(** A property value read off a data point: a string or a number. *)
Inductive value : Type :=
  | Str (s : string)
  | Num (q : Q).

(** [typeof v === 'number' ? v : 0] *)
Definition number_or_zero (v : value) : Q :=
  match v with
  | Num q => q
  | Str _ => 0%Q
  end.

End Js.

(** ** hooks/useWeatherData.ts *)

Module UseWeatherData.

Record WeatherDataPoint : Type := {
  time : string;
  temperature_2m : Q;
  relative_humidity_2m : Q;
  wind_speed_10m : Q
}.

(** [keyof WeatherDataPoint] *)
Inductive Field : Type :=
  | time_key
  | temperature_2m_key
  | relative_humidity_2m_key
  | wind_speed_10m_key.

(** [point[field]] *)
Definition get (point : WeatherDataPoint) (field : Field) : Js.value :=
  match field with
  | time_key => Js.Str (time point)
  | temperature_2m_key => Js.Num (temperature_2m point)
  | relative_humidity_2m_key => Js.Num (relative_humidity_2m point)
  | wind_speed_10m_key => Js.Num (wind_speed_10m point)
  end.

(** A ring vertex, [[longitude, latitude]]. *)
Definition Coord : Type := (Q * Q)%type.

(** The vertex mean computed at the head of [getPolygonAverage] (and again
    in [handlePolygonCreate]): the sums of both components, each divided by
    the number of vertices. *)
Definition centroid (coordinates : list Coord) : Coord :=
  let sums :=
    foldl (fun acc coord => (fst acc + fst coord, snd acc + snd coord)%Q)
          (0, 0)%Q coordinates in
  let n := inject_Z (Z.of_nat (length coordinates)) in
  (fst sums / n, snd sums / n)%Q.

(** [getPolygonAverage(coordinates, field, timeStart, timeEnd)] over the
    hook's [data]. *)
Definition getPolygonAverage (data : list WeatherDataPoint)
    (coordinates : list Coord) (field : Field) (timeStart timeEnd : Z) : Q :=
  if Nat.eqb (length data) 0 then 0%Q
  else
    let centroid := centroid coordinates in
    let startIndex := Z.max 0 timeStart in
    let endIndex := Z.min (Z.of_nat (length data) - 1) timeEnd in
    let relevantData := Js.slice data startIndex (endIndex + 1) in
    if Nat.eqb (length relevantData) 0 then 0%Q
    else
      let sum :=
        foldl (fun acc point => (acc + Js.number_or_zero (get point field))%Q)
              0%Q relevantData in
      (sum / inject_Z (Z.of_nat (length relevantData)))%Q.

(** [getValueAtTime(coordinates, field, timeIndex)] over the hook's [data]. *)
Definition getValueAtTime (data : list WeatherDataPoint)
    (coordinates : list Coord) (field : Field) (timeIndex : Z) : Q :=
  if Nat.eqb (length data) 0
     || (timeIndex <? 0)%Z
     || (timeIndex >=? Z.of_nat (length data))%Z
  then 0%Q
  else
    match data !! Z.to_nat timeIndex with
    | Some dataPoint => Js.number_or_zero (get dataPoint field)
    | None => 0%Q
    end.

Record WeatherParams : Type := {
  latitude : Q;
  longitude : Q;
  startDate : string;
  endDate : string;
  hourly : option (list string)
}.

(** The source keeps [JSON.stringify(params)] in [params]; the record stands
    for that text. *)
Record CacheEntry : Type := {
  entry_data : list WeatherDataPoint;
  timestamp : Z;
  params : WeatherParams
}.

(** 30 minutes, in milliseconds. *)
Definition CACHE_DURATION : Z := 30 * 60 * 1000.

Record Toast : Type := {
  title : string;
  description : string;
  variant : option string
}.

(** The archive request: the endpoint and the query pairs appended to it. *)
Record Request : Type := {
  endpoint : string;
  searchParams : list (string * string)
}.

(** What one call does to the outside world, in order. *)
Inductive Effect : Type :=
  | toast (t : Toast)
  | fetch (url : Request).

(** A value caught by [catch (err)]. *)
Inductive Thrown : Type :=
  | ErrorObject (message : string)
  | OtherValue.

(** The [hourly] object of the provider's answer; a column may be missing,
    and a cell may be [null]. *)
Record Hourly : Type := {
  hourly_time : list string;
  hourly_temperature_2m : option (list (option Q));
  hourly_relative_humidity_2m : option (list (option Q));
  hourly_wind_speed_10m : option (list (option Q))
}.

(** [await response.json()]: it throws, or gives an object whose [hourly]
    may be absent. *)
Inductive Body : Type :=
  | BodyThrows (err : Thrown)
  | BodyJson (hourly : option Hourly).

(** [await fetch(url)]: it rejects, or resolves with a status and a body. *)
Inductive Reply : Type :=
  | Rejects (err : Thrown)
  | Resolves (status : Z) (body : Body).

(** What the world hands to one call of [fetchWeatherData]: the clock at
    the cache check, the provider's reply, the clock when the entry is
    stored, and the series [generateMockData(params)] draws (it reads
    [Date], [Math.sin] and [Math.random]). *)
Record World : Type := {
  now_at_lookup : Z;
  reply : Reply;
  now_at_store : Z;
  mockData : list WeatherDataPoint
}.

(** The hook's [useState] cells. *)
Record State : Type := {
  data : list WeatherDataPoint;
  loading : bool;
  error : option string;
  cache : gmap string CacheEntry
}.

(** The item under [CACHE_KEY] in [localStorage]: nothing, text that
    [JSON.parse] rejects, or an object of entries. *)
Inductive Stored : Type :=
  | NoItem
  | Unparsable
  | Parsed (parsedCache : gmap string CacheEntry).

(** [now - entry.timestamp < CACHE_DURATION] *)
Definition fresh (now : Z) (entry : CacheEntry) : bool :=
  (now - timestamp entry <? CACHE_DURATION)%Z.

(** The mount effect: entries that are not fresh are left out of the map
    handed to [setCache]. *)
Definition loadCache (now : Z) (savedCache : Stored) (st : State) : State :=
  match savedCache with
  | Parsed parsedCache =>
      {| data := data st; loading := loading st; error := error st;
         cache := filter (fun kv => fresh now (snd kv) = true) parsedCache |}
  | NoItem | Unparsable => st
  end.

(** The save effect: the whole map is written back. *)
Definition saveCache (st : State) : Stored :=
  Parsed (cache st).

(** [clearCache]: an empty map and no stored item. *)
Definition clearCache (st : State) : State * Stored * list Effect :=
  ({| data := data st; loading := loading st; error := error st; cache := ∅ |},
   NoItem,
   [toast {| title := "Cache Cleared";
             description := "Weather data cache has been cleared.";
             variant := None |}]).

(** [response.ok] *)
Definition ok (status : Z) : bool :=
  (200 <=? status)%Z && (status <=? 299)%Z.

(** [err instanceof Error ? err.message : 'Failed to fetch weather data'] *)
Definition errorMessage (err : Thrown) : string :=
  match err with
  | ErrorObject message => message
  | OtherValue => "Failed to fetch weather data"
  end.

(** [column?.[index] || 0] *)
Definition cell (column : option (list (option Q))) (index : nat) : Q :=
  match column with
  | Some xs => match xs !! index with
               | Some (Some x) => x
               | _ => 0%Q
               end
  | None => 0%Q
  end.

(** The columnar answer turned into rows. *)
Definition transform (h : Hourly) : list WeatherDataPoint :=
  imap (fun index t =>
          {| time := t;
             temperature_2m := cell (hourly_temperature_2m h) index;
             relative_humidity_2m := cell (hourly_relative_humidity_2m h) index;
             wind_speed_10m := cell (hourly_wind_speed_10m h) index |})
       (hourly_time h).

(** The body of the [try] block after [fetch]: the rows, or what was
    thrown. *)
Definition receive (r : Reply) : Thrown + list WeatherDataPoint :=
  match r with
  | Rejects err => inl err
  | Resolves status body =>
      if negb (ok status)
      then inl (ErrorObject ("Weather API error: " +:+ pretty status))
      else match body with
           | BodyThrows err => inl err
           | BodyJson None => inl (ErrorObject "No hourly data received from API")
           | BodyJson (Some h) => inr (transform h)
           end
  end.

(** The ways a request fails: the network rejects it, the status is not
    2xx, the body cannot be read, or the answer has no [hourly]. *)
Inductive RequestFailure : Reply -> Prop :=
  | network_error err : RequestFailure (Rejects err)
  | bad_status status body : ok status = false -> RequestFailure (Resolves status body)
  | unreadable_body status err : RequestFailure (Resolves status (BodyThrows err))
  | missing_hourly status : RequestFailure (Resolves status (BodyJson None)).

Section Hook.

(** [Number.prototype.toString], which the template literal and the query
    builder apply to latitude and longitude. *)
Variable numberToString : Q -> string.

(** [params.hourly?.join(',') || 'default'] *)
Definition hourlyText (p : WeatherParams) : string :=
  match hourly p with
  | Some fields =>
      let joined := Js.join "," fields in
      if String.eqb joined "" then "default" else joined
  | None => "default"
  end.

Definition generateCacheKey (p : WeatherParams) : string :=
  numberToString (latitude p) +:+ "_" +:+ numberToString (longitude p) +:+ "_"
  +:+ startDate p +:+ "_" +:+ endDate p +:+ "_" +:+ hourlyText p.

Definition archiveRequest (p : WeatherParams) : Request :=
  let hourlyParams :=
    match hourly p with
    | Some fields => fields
    | None => ["temperature_2m"; "relative_humidity_2m"; "wind_speed_10m"]
    end in
  {| endpoint := "https://archive-api.open-meteo.com/v1/archive";
     searchParams :=
       [("latitude", numberToString (latitude p));
        ("longitude", numberToString (longitude p));
        ("start_date", startDate p);
        ("end_date", endDate p);
        ("hourly", Js.join "," hourlyParams);
        ("timezone", "auto")] |}.

(** [cachedEntry && Date.now() - cachedEntry.timestamp < CACHE_DURATION] *)
Definition cacheHit (st : State) (cacheKey : string) (now : Z) : option CacheEntry :=
  match cache st !! cacheKey with
  | Some cachedEntry => if fresh now cachedEntry then Some cachedEntry else None
  | None => None
  end.

(** [fetchWeatherData(params)]: the state once the promise has settled and
    the effects of the call. *)
Definition fetchWeatherData (st : State) (p : WeatherParams) (w : World)
  : State * list Effect :=
  let cacheKey := generateCacheKey p in
  match cacheHit st cacheKey (now_at_lookup w) with
  | Some cachedEntry =>
      ({| data := entry_data cachedEntry; loading := false; error := None;
          cache := cache st |},
       [toast {| title := "Data Loaded from Cache";
                 description := "Using cached weather data for the selected region.";
                 variant := None |}])
  | None =>
      match receive (reply w) with
      | inr transformedData =>
          let newCache :=
            <[cacheKey := {| entry_data := transformedData;
                             timestamp := now_at_store w;
                             params := p |}]> (cache st) in
          ({| data := transformedData; loading := false; error := None;
              cache := newCache |},
           [fetch (archiveRequest p);
            toast {| title := "Weather Data Loaded";
                     description :=
                       "Fetched " +:+ pretty (length transformedData)
                       +:+ " data points from Open-Meteo API.";
                     variant := None |}])
      | inl err =>
          let errorMessage := errorMessage err in
          ({| data := mockData w; loading := false; error := Some errorMessage;
              cache := cache st |},
           [fetch (archiveRequest p);
            toast {| title := "Error Loading Weather Data";
                     description := errorMessage;
                     variant := Some "destructive" |};
            toast {| title := "Using Mock Data";
                     description :=
                       "Switched to simulated weather data for demonstration.";
                     variant := Some "default" |}])
      end
  end.

End Hook.

(** The archive requests among the effects of a call. *)
Definition requests (effects : list Effect) : list Request :=
  omap (fun e => match e with fetch url => Some url | toast _ => None end) effects.

(** [cacheSize: cache.size] *)
Definition cacheSize (st : State) : nat :=
  size (cache st).

End UseWeatherData.

(** ** pages/Index.tsx *)

Module Index.

Import UseWeatherData.

Record Polygon : Type := {
  id : string;
  name : string;
  coordinates : list Coord;
  dataSource : string;
  color : string;
  value : option Q
}.

Record State : Type := {
  polygons : list Polygon;
  selectedPolygons : list string;
  timeRange : Z * Z;
  isSingleTime : bool
}.

(** The body of the [map] callback in [updatePolygonColors], for one
    polygon.  [series] is the hook's [data], read through
    [getValueAtTime] and [getPolygonAverage]. *)
Definition recolor (single : bool) (series : list WeatherDataPoint)
    (startHour endHour : Z) (polygon : Polygon) : Polygon :=
  let avgValue :=
    if single
    then getValueAtTime series (coordinates polygon) temperature_2m_key startHour
    else getPolygonAverage series (coordinates polygon) temperature_2m_key
           startHour endHour in
  let color := "#8b5cf6" in
  let color :=
    if Js.lt avgValue 10 then "#22c55e"
    else if Js.lt avgValue 25 then "#f59e0b"
    else "#ef4444" in
  {| id := id polygon;
     name := name polygon;
     coordinates := coordinates polygon;
     dataSource := dataSource polygon;
     color := color;
     value := Some (Js.round (avgValue * 10) / 10)%Q |}.

(** [updatePolygonColors(startHour, endHour)] as the updater it hands to
    [setPolygons]. *)
Definition updatePolygonColors (single : bool) (series : list WeatherDataPoint)
    (startHour endHour : Z) (prevPolygons : list Polygon) : list Polygon :=
  map (recolor single series startHour endHour) prevPolygons.

Section Create.

(** [getDateFromHour] reads the current date. *)
Variable getDateFromHour : Z -> string.

(** [handlePolygonCreate(polygon)]: the new state and the parameters of
    the fetch it starts. *)
Definition handlePolygonCreate (st : State) (polygon : Polygon)
  : State * WeatherParams :=
  let c := centroid (coordinates polygon) in
  ({| polygons := polygons st ++ [polygon];
      selectedPolygons := selectedPolygons st ++ [id polygon];
      timeRange := timeRange st;
      isSingleTime := isSingleTime st |},
   {| latitude := snd c;
      longitude := fst c;
      startDate := getDateFromHour 0;
      endDate := getDateFromHour 720;
      hourly := None |}).

End Create.

Definition handlePolygonDelete (st : State) (target : string) : State :=
  {| polygons := List.filter (fun p => negb (String.eqb (id p) target)) (polygons st);
     selectedPolygons :=
       List.filter (fun pid => negb (String.eqb pid target)) (selectedPolygons st);
     timeRange := timeRange st;
     isSingleTime := isSingleTime st |}.

End Index.

(** ** components/dashboard/DataSourceSidebar.tsx *)

Module DataSourceSidebar.

Record Threshold : Type := {
  value : Q;
  color : string;
  operator : string;
  label : string
}.

Record Thresholds : Type := {
  low : Threshold;
  medium : Threshold;
  high : Threshold
}.

(** The [icon] node is presentation only and left out. *)
Record DataSource : Type := {
  id : string;
  name : string;
  field : string;
  unit : string;
  description : string;
  thresholds : Thresholds;
  isActive : bool
}.

Definition availableDataSources : list DataSource :=
  [ {| id := "temperature_2m"; name := "Temperature"; field := "temperature_2m";
       unit := "°C"; description := "Air temperature at 2 meters above ground";
       thresholds :=
         {| low := {| value := 10; color := "#22c55e"; operator := "<"; label := "Cold" |};
            medium := {| value := 25; color := "#f59e0b"; operator := "<"; label := "Moderate" |};
            high := {| value := 25; color := "#ef4444"; operator := ">="; label := "Hot" |} |};
       isActive := true |};
    {| id := "relative_humidity_2m"; name := "Humidity"; field := "relative_humidity_2m";
       unit := "%"; description := "Relative humidity at 2 meters above ground";
       thresholds :=
         {| low := {| value := 30; color := "#22c55e"; operator := "<"; label := "Dry" |};
            medium := {| value := 70; color := "#f59e0b"; operator := "<"; label := "Comfortable" |};
            high := {| value := 70; color := "#ef4444"; operator := ">="; label := "Humid" |} |};
       isActive := false |};
    {| id := "wind_speed_10m"; name := "Wind Speed"; field := "wind_speed_10m";
       unit := "km/h"; description := "Wind speed at 10 meters above ground";
       thresholds :=
         {| low := {| value := 10; color := "#22c55e"; operator := "<"; label := "Calm" |};
            medium := {| value := 30; color := "#f59e0b"; operator := "<"; label := "Breezy" |};
            high := {| value := 30; color := "#ef4444"; operator := ">="; label := "Windy" |} |};
       isActive := false |} ].

(** The module-level catalog is part of the state: threshold objects are
    shared between a catalog entry and every copy spread from it, so an
    edit made through a copy shows in the catalog too.  The initial row is
    the first catalog entry itself, not a copy: [firstRowIsCatalog] holds
    while that object is still row 0, and a write to the row's own
    properties then shows in the catalog as well. *)
Record State : Type := {
  catalog : list DataSource;
  activeDataSources : list DataSource;
  firstRowIsCatalog : bool;
  editingIndex : option nat;
  showLegend : bool
}.

Definition initialState : State :=
  {| catalog := availableDataSources;
     activeDataSources := take 1 availableDataSources;
     firstRowIsCatalog := true;
     editingIndex := None;
     showLegend := true |}.

(** New rows behind the same first row: rows are appended, or changed in
    place. *)
Definition withActive (st : State) (newSources : list DataSource) : State :=
  {| catalog := catalog st;
     activeDataSources := newSources;
     firstRowIsCatalog := firstRowIsCatalog st;
     editingIndex := editingIndex st;
     showLegend := showLegend st |}.

Definition activate (ds : DataSource) (flag : bool) : DataSource :=
  {| id := id ds; name := name ds; field := field ds; unit := unit ds;
     description := description ds; thresholds := thresholds ds;
     isActive := flag |}.

Definition addDataSource (st : State) : State :=
  if (length (activeDataSources st) <? 3)%nat
  then
    match List.find
            (fun ds => negb (existsb (fun active => String.eqb (id active) (id ds))
                                     (activeDataSources st)))
            (catalog st) with
    | Some nextInactive =>
        withActive st (activeDataSources st ++ [activate nextInactive true])
    | None => st
    end
  else st.

Definition removeDataSource (st : State) (index : nat) : State :=
  let newSources :=
    Js.filteri (fun _ i => negb (i =? index)%nat) (activeDataSources st) in
  {| catalog := catalog st;
     activeDataSources := newSources;
     firstRowIsCatalog := firstRowIsCatalog st && negb (index =? 0)%nat;
     editingIndex := None;
     showLegend := showLegend st |}.

(** [updateDataSource(index, updatedSource)]: the new state and one
    [onDataSourceChange] call per selected polygon.  The sidebar passes the
    index of a rendered row, where the assignment replaces that row. *)
Definition updateDataSource (selectedPolygons : list string) (st : State)
    (index : nat) (updatedSource : DataSource)
  : State * list (string * DataSource) :=
  ({| catalog := catalog st;
      activeDataSources := <[index := updatedSource]> (activeDataSources st);
      firstRowIsCatalog := firstRowIsCatalog st && negb (index =? 0)%nat;
      editingIndex := editingIndex st;
      showLegend := showLegend st |},
   map (fun polygonId => (polygonId, updatedSource)) selectedPolygons).

Inductive Level : Type := Low | Medium | High.

(** The [field] and [value] arguments of [updateThreshold] together. *)
Inductive Edit : Type :=
  | SetValue (v : Q)
  | SetOperator (v : string)
  | SetLabel (v : string).

Definition editThreshold (e : Edit) (t : Threshold) : Threshold :=
  match e with
  | SetValue v =>
      {| value := v; color := color t; operator := operator t; label := label t |}
  | SetOperator v =>
      {| value := value t; color := color t; operator := v; label := label t |}
  | SetLabel v =>
      {| value := value t; color := color t; operator := operator t; label := v |}
  end.

Definition editLevel (level : Level) (e : Edit) (ts : Thresholds) : Thresholds :=
  match level with
  | Low => {| low := editThreshold e (low ts); medium := medium ts; high := high ts |}
  | Medium => {| low := low ts; medium := editThreshold e (medium ts); high := high ts |}
  | High => {| low := low ts; medium := medium ts; high := editThreshold e (high ts) |}
  end.

(** The in-place write reaches every object that shares the threshold
    object, that is every entry with the same [id]. *)
Definition writeThrough (target : string) (level : Level) (e : Edit)
    (l : list DataSource) : list DataSource :=
  map (fun ds =>
         if String.eqb (id ds) target
         then {| id := id ds; name := name ds; field := field ds; unit := unit ds;
                 description := description ds;
                 thresholds := editLevel level e (thresholds ds);
                 isActive := isActive ds |}
         else ds) l.

Definition updateThreshold (st : State) (index : nat) (level : Level) (e : Edit)
  : State :=
  match activeDataSources st !! index with
  | Some row =>
      {| catalog := writeThrough (id row) level e (catalog st);
         activeDataSources := writeThrough (id row) level e (activeDataSources st);
         firstRowIsCatalog := firstRowIsCatalog st;
         editingIndex := editingIndex st;
         showLegend := showLegend st |}
  | None => st
  end.

(** The flag is flipped on the row object in place; when that object is
    the first catalog entry, the catalog shows the flip too. *)
Definition toggleDataSourceVisibility (st : State) (index : nat) : State :=
  match activeDataSources st !! index with
  | Some row =>
      let flipped := activate row (negb (isActive row)) in
      {| catalog :=
           if firstRowIsCatalog st && (index =? 0)%nat
           then <[0%nat := flipped]> (catalog st)
           else catalog st;
         activeDataSources := <[index := flipped]> (activeDataSources st);
         firstRowIsCatalog := firstRowIsCatalog st;
         editingIndex := editingIndex st;
         showLegend := showLegend st |}
  | None => st
  end.

(** What the user can do on the rendered sidebar. *)
Inductive Event : Type :=
  | ClickAdd
  | ClickRemove (index : nat)
  | ClickToggle (index : nat)
  | ClickSettings (index : nat)
  | SelectField (index : nat) (v : string)
  | ChangeThreshold (index : nat) (level : Level) (e : Edit)
  | ClickLegend.

(** Whether the control behind an event is on screen: the trash button
    needs more than one row, the add button fewer than three, the editor
    is open for [editingIndex] only. *)
Definition rendered (st : State) (ev : Event) : bool :=
  let n := length (activeDataSources st) in
  match ev with
  | ClickAdd => (n <? 3)%nat
  | ClickRemove index => (index <? n)%nat && (1 <? n)%nat
  | ClickToggle index | ClickSettings index => (index <? n)%nat
  | SelectField index _ | ChangeThreshold index _ _ =>
      (index <? n)%nat && bool_decide (editingIndex st = Some index)
  | ClickLegend => true
  end.

Definition handle (selectedPolygons : list string) (st : State) (ev : Event) : State :=
  match ev with
  | ClickAdd => addDataSource st
  | ClickRemove index => removeDataSource st index
  | ClickToggle index => toggleDataSourceVisibility st index
  | ClickSettings index =>
      {| catalog := catalog st;
         activeDataSources := activeDataSources st;
         firstRowIsCatalog := firstRowIsCatalog st;
         editingIndex :=
           if bool_decide (editingIndex st = Some index) then None else Some index;
         showLegend := showLegend st |}
  | SelectField index v =>
      match List.find (fun s => String.eqb (field s) v) (catalog st),
            activeDataSources st !! index with
      | Some source, Some row =>
          fst (updateDataSource selectedPolygons st index
                 (activate source (isActive row)))
      | _, _ => st
      end
  | ChangeThreshold index level e => updateThreshold st index level e
  | ClickLegend =>
      {| catalog := catalog st;
         activeDataSources := activeDataSources st;
         firstRowIsCatalog := firstRowIsCatalog st;
         editingIndex := editingIndex st;
         showLegend := negb (showLegend st) |}
  end.

(** One user action: it reaches its handler only through a rendered
    control. *)
Definition step (selectedPolygons : list string) (st : State) (ev : Event) : State :=
  if rendered st ev then handle selectedPolygons st ev else st.

Definition run (selectedPolygons : list string) (st : State) (evs : list Event) : State :=
  foldl (step selectedPolygons) st evs.

End DataSourceSidebar.

(** ** pages/Index.tsx, the handlers wired to the sidebar and the slider *)

Module Page.

Import UseWeatherData.

Definition withPolygons (st : Index.State) (ps : list Index.Polygon) : Index.State :=
  {| Index.polygons := ps;
     Index.selectedPolygons := Index.selectedPolygons st;
     Index.timeRange := Index.timeRange st;
     Index.isSingleTime := Index.isSingleTime st |}.


(** [{ ...polygon, dataSource: dataSource.field }] *)
Definition assign (polygon : Index.Polygon) (dataSource : DataSourceSidebar.DataSource)
  : Index.Polygon :=
  {| Index.id := Index.id polygon;
     Index.name := Index.name polygon;
     Index.coordinates := Index.coordinates polygon;
     Index.dataSource := DataSourceSidebar.field dataSource;
     Index.color := Index.color polygon;
     Index.value := Index.value polygon |}.

Definition handleDataSourceChange (st : Index.State) (polygonId : string)
    (dataSource : DataSourceSidebar.DataSource) : Index.State :=
  withPolygons st
    (map (fun polygon =>
            if String.eqb (Index.id polygon) polygonId
            then assign polygon dataSource else polygon)
         (Index.polygons st)).

(** What the [updatePolygonColors] reached from a slider handler closes
    over: the mode flag and the series of the render it was made in.  The
    setters called just before it do not change them. *)
Record Seen : Type := {
  seenSingleTime : bool;
  seenData : list WeatherDataPoint
}.

Definition handleTimeRangeChange (seen : Seen) (st : Index.State)
    (startHour endHour : Z) : Index.State :=
  {| Index.polygons :=
       Index.updatePolygonColors (seenSingleTime seen) (seenData seen)
         startHour endHour (Index.polygons st);
     Index.selectedPolygons := Index.selectedPolygons st;
     Index.timeRange := (startHour, endHour);
     Index.isSingleTime := false |}.

Definition handleSingleTimeChange (seen : Seen) (st : Index.State) (hour : Z)
  : Index.State :=
  {| Index.polygons :=
       Index.updatePolygonColors (seenSingleTime seen) (seenData seen)
         hour hour (Index.polygons st);
     Index.selectedPolygons := Index.selectedPolygons st;
     Index.timeRange := (hour, hour);
     Index.isSingleTime := true |}.

End Page.

(** ** components/dashboard/MapView.tsx *)

Module MapView.

Import UseWeatherData.

Record State : Type := {
  isDrawing : bool;
  currentPolygon : list Coord;
  selectedPolygon : option string;
  editingPolygonName : option string;
  newPolygonName : string;
  (** whether the map holds the ['drawing-polygon'] layer *)
  drawingLayer : bool
}.

(** What a handler does besides setting state, in order. *)
Inductive Effect : Type :=
  | toast (t : Toast)
  | onPolygonCreate (polygon : Index.Polygon)
  | onPolygonDelete (target : string)
  | setCursor (style : string)
  | drawPreview (ring : list Coord)
  | removePreview.

(** The values the [useState] cells start with, which are the ones the
    closures of the first render see. *)
Definition initialState : State :=
  {| isDrawing := false;
     currentPolygon := [];
     selectedPolygon := None;
     editingPolygonName := None;
     newPolygonName := "";
     drawingLayer := false |}.




(** [finishDrawing()], with [polygons] the prop and [now] what [Date.now()]
    returns.  Past the length check [currentPolygon[0]] is the head of the
    list. *)
Definition finishDrawing (polygons : list Index.Polygon) (now : Z) (st : State)
  : State * list Effect :=
  if (length (currentPolygon st) <? 3)%nat
  then
    (st,
     [toast {| title := "Invalid Polygon";
               description := "A polygon needs at least 3 points.";
               variant := Some "destructive" |}])
  else
    let newPolygon :=
      {| Index.id := "polygon-" +:+ pretty now;
         Index.name :=
           if String.eqb (newPolygonName st) ""
           then "Region " +:+ pretty (length polygons + 1)%nat
           else newPolygonName st;
         Index.coordinates := currentPolygon st ++ take 1 (currentPolygon st);
         Index.dataSource := "temperature_2m";
         Index.color := "#8b5cf6";
         Index.value := None |} in
    ({| isDrawing := false;
        currentPolygon := [];
        selectedPolygon := selectedPolygon st;
        editingPolygonName := editingPolygonName st;
        newPolygonName := "";
        drawingLayer := false |},
     [onPolygonCreate newPolygon; setCursor ""]
     ++ (if drawingLayer st then [removePreview] else [])
     ++ [toast {| title := "Polygon Created";
                  description := "New analysis region added to the map.";
                  variant := None |}]).

Definition cancelDrawing (st : State) : State * list Effect :=
  ({| isDrawing := false;
      currentPolygon := [];
      selectedPolygon := selectedPolygon st;
      editingPolygonName := editingPolygonName st;
      newPolygonName := newPolygonName st;
      drawingLayer := false |},
   setCursor "" :: (if drawingLayer st then [removePreview] else [])).

(** [if (selectedPolygon)]: [null] and the empty string are both falsy. *)
Definition deleteSelectedPolygon (st : State) : State * list Effect :=
  match selectedPolygon st with
  | Some target =>
      if String.eqb target "" then (st, [])
      else
      ({| isDrawing := isDrawing st;
          currentPolygon := currentPolygon st;
          selectedPolygon := None;
          editingPolygonName := editingPolygonName st;
          newPolygonName := newPolygonName st;
          drawingLayer := drawingLayer st |},
       [onPolygonDelete target;
        toast {| title := "Polygon Deleted";
                 description := "Analysis region removed from the map.";
                 variant := None |}])
  | None => (st, [])
  end.



(** The polygons handed to [onPolygonCreate] by a handler. *)
Definition created (effects : list Effect) : list Index.Polygon :=
  omap (fun e => match e with onPolygonCreate polygon => Some polygon | _ => None end)
       effects.

End MapView.

(** ** components/dashboard/TimelineSlider.tsx *)

Module TimelineSlider.

Local Open Scope Z_scope.

(** [currentValue] is a one-element array and [rangeValue] a two-element
    array in the source. *)
Record State : Type := {
  isRangeMode : bool;
  isPlaying : bool;
  currentValue : Z;
  rangeValue : Z * Z;
  playSpeed : Z
}.

Definition initialState : State :=
  {| isRangeMode := true;
     isPlaying := false;
     currentValue := 360;
     rangeValue := (336, 384);
     playSpeed := 1000 |}.

(** 30 days of 24 hours *)
Definition maxHours : Z := 720.

(** The callback handed to [setInterval]. *)
Definition tick (st : State) : State :=
  if isRangeMode st
  then
    let prev := rangeValue st in
    let rangeSize := snd prev - fst prev in
    let newStart := Z.min (fst prev + 1) (maxHours - rangeSize) in
    let newEnd := Z.min (snd prev + 1) maxHours in
    if (newEnd >=? maxHours)%Z
    then
      {| isRangeMode := isRangeMode st; isPlaying := false;
         currentValue := currentValue st; rangeValue := prev;
         playSpeed := playSpeed st |}
    else
      {| isRangeMode := isRangeMode st; isPlaying := isPlaying st;
         currentValue := currentValue st; rangeValue := (newStart, newEnd);
         playSpeed := playSpeed st |}
  else
    let prev := currentValue st in
    let newValue := Z.min (prev + 1) maxHours in
    if (newValue >=? maxHours)%Z
    then
      {| isRangeMode := isRangeMode st; isPlaying := false;
         currentValue := prev; rangeValue := rangeValue st;
         playSpeed := playSpeed st |}
    else
      {| isRangeMode := isRangeMode st; isPlaying := isPlaying st;
         currentValue := newValue; rangeValue := rangeValue st;
         playSpeed := playSpeed st |}.

(** The playback effect: the interval runs only while [isPlaying]. *)
Definition playback (st : State) : State :=
  if isPlaying st then tick st else st.

(** [n] timer periods in a row. *)
Definition playbackN (n : nat) (st : State) : State :=
  Nat.iter n playback st.

Definition handlePlayPause (st : State) : State :=
  {| isRangeMode := isRangeMode st; isPlaying := negb (isPlaying st);
     currentValue := currentValue st; rangeValue := rangeValue st;
     playSpeed := playSpeed st |}.

Definition handleSkipBack (st : State) : State :=
  if isRangeMode st
  then
    {| isRangeMode := isRangeMode st; isPlaying := isPlaying st;
       currentValue := currentValue st;
       rangeValue := (Z.max (fst (rangeValue st) - 24) 0,
                      Z.max (snd (rangeValue st) - 24) 24);
       playSpeed := playSpeed st |}
  else
    {| isRangeMode := isRangeMode st; isPlaying := isPlaying st;
       currentValue := Z.max (currentValue st - 24) 0;
       rangeValue := rangeValue st;
       playSpeed := playSpeed st |}.

Definition handleSkipForward (st : State) : State :=
  if isRangeMode st
  then
    {| isRangeMode := isRangeMode st; isPlaying := isPlaying st;
       currentValue := currentValue st;
       rangeValue := (Z.min (fst (rangeValue st) + 24) (maxHours - 24),
                      Z.min (snd (rangeValue st) + 24) maxHours);
       playSpeed := playSpeed st |}
  else
    {| isRangeMode := isRangeMode st; isPlaying := isPlaying st;
       currentValue := Z.min (currentValue st + 24) maxHours;
       rangeValue := rangeValue st;
       playSpeed := playSpeed st |}.

(** The window the slider reports to the page. *)
Definition window (st : State) : Z * Z :=
  if isRangeMode st then rangeValue st else (currentValue st, currentValue st).

(** The slider keeps its values ordered and inside [0 .. maxHours]. *)
Definition inHorizon (st : State) : Prop :=
  0 <= currentValue st <= maxHours
  /\ 0 <= fst (rangeValue st) <= snd (rangeValue st)
  /\ snd (rangeValue st) <= maxHours.

End TimelineSlider.

(** ** The page wiring: MapView callbacks reach the Index handlers *)

Module Dashboard.

Section Wiring.

Variable getDateFromHour : Z -> string.

Definition deliver (st : Index.State) (e : MapView.Effect) : Index.State :=
  match e with
  | MapView.onPolygonCreate polygon =>
      fst (Index.handlePolygonCreate getDateFromHour st polygon)
  | MapView.onPolygonDelete target => Index.handlePolygonDelete st target
  | _ => st
  end.

(** The Finish button: [finishDrawing] runs against the page's polygons and
    its callbacks update the page. *)
Definition clickFinish (now : Z) (page : Index.State) (view : MapView.State)
  : Index.State * MapView.State :=
  let '(view', effects) := MapView.finishDrawing (Index.polygons page) now view in
  (foldl deliver page effects, view').

End Wiring.

End Dashboard.

(** ** Handlers applied in turn *)

Module Session.

Import UseWeatherData.




(** The Delete button: [deleteSelectedPolygon] and the page's
    [handlePolygonDelete] behind [onPolygonDelete]. *)
Definition clickDelete (page : Index.State) (view : MapView.State)
  : Index.State * MapView.State :=
  let '(view', effects) := MapView.deleteSelectedPolygon view in
  (foldl (fun st e => match e with
                      | MapView.onPolygonDelete target =>
                          Index.handlePolygonDelete st target
                      | _ => st
                      end) page effects,
   view').

End Session.

(** ** components/dashboard/DashboardMetrics.tsx: the reducer *)

Module DashboardMetrics.

Inductive Trend : Type := up | down | neutral.

(** The [icon] node is presentation only and left out. *)
Record DashboardMetric : Type := {
  id : string;
  title : string;
  value : string;
  change : string;
  trend : Trend;
  color : string
}.

Record DashboardState : Type := {
  selectedDatasets : list string;
  timeRange : Z * Z;
  metrics : list DashboardMetric;
  polygonCount : nat;
  isLoading : bool
}.

(** An action, its [type] with the payload that type carries. *)
Inductive DashboardAction : Type :=
  | SET_TIME_RANGE (payload : Z * Z)
  | ADD_DATASET (payload : string)
  | REMOVE_DATASET (payload : string)
  | UPDATE_METRICS (payload : list DashboardMetric)
  | SET_LOADING (payload : bool)
  | INCREMENT_POLYGONS.

Definition initialState : DashboardState :=
  {| selectedDatasets := ["temperature_2m"];
     timeRange := (360, 384)%Z;
     metrics :=
       [ {| id := "total-regions"; title := "Total Regions"; value := "0";
            change := "+0%"; trend := neutral; color := "chart-1" |};
         {| id := "avg-temp"; title := "Avg Temperature"; value := "--°C";
            change := "--"; trend := neutral; color := "chart-2" |};
         {| id := "data-points"; title := "Data Points"; value := "0";
            change := "--"; trend := neutral; color := "chart-3" |};
         {| id := "active-sources"; title := "Active Sources"; value := "1";
            change := "+0%"; trend := neutral; color := "chart-4" |} ];
     polygonCount := 0;
     isLoading := false |}.

Definition dashboardReducer (state : DashboardState) (action : DashboardAction)
  : DashboardState :=
  match action with
  | SET_TIME_RANGE payload =>
      {| selectedDatasets := selectedDatasets state; timeRange := payload;
         metrics := metrics state; polygonCount := polygonCount state;
         isLoading := isLoading state |}
  | ADD_DATASET payload =>
      {| selectedDatasets := selectedDatasets state ++ [payload];
         timeRange := timeRange state;
         metrics := metrics state; polygonCount := polygonCount state;
         isLoading := isLoading state |}
  | REMOVE_DATASET payload =>
      {| selectedDatasets :=
           List.filter (fun ds => negb (String.eqb ds payload)) (selectedDatasets state);
         timeRange := timeRange state;
         metrics := metrics state; polygonCount := polygonCount state;
         isLoading := isLoading state |}
  | UPDATE_METRICS payload =>
      {| selectedDatasets := selectedDatasets state; timeRange := timeRange state;
         metrics := payload; polygonCount := polygonCount state;
         isLoading := isLoading state |}
  | SET_LOADING payload =>
      {| selectedDatasets := selectedDatasets state; timeRange := timeRange state;
         metrics := metrics state; polygonCount := polygonCount state;
         isLoading := payload |}
  | INCREMENT_POLYGONS =>
      let newCount := (polygonCount state + 1)%nat in
      let updatedMetrics :=
        map (fun metric =>
               if String.eqb (id metric) "total-regions"
               then {| id := id metric; title := title metric;
                       value := pretty newCount;
                       change := "+" +:+ pretty newCount;
                       trend := trend metric; color := color metric |}
               else metric)
            (metrics state) in
      {| selectedDatasets := selectedDatasets state; timeRange := timeRange state;
         metrics := updatedMetrics; polygonCount := newCount;
         isLoading := isLoading state |}
  end.

(** Actions dispatched one after the other. *)
Definition dispatchAll (state : DashboardState) (actions : list DashboardAction)
  : DashboardState :=
  foldl dashboardReducer state actions.

End DashboardMetrics.

(** ** The specification's wording, for comparison with the code *)

Module Spec.

Import UseWeatherData.

(** [clamp(x, lo, hi)] *)
Definition clamp (x lo hi : Z) : Z :=
  Z.min (Z.max x lo) hi.

(** The sample of a series at an hour index, read as a number. *)
Definition sample (series : list WeatherDataPoint) (field : Field) (i : Z) : Q :=
  if (i <? 0)%Z then 0%Q
  else match series !! Z.to_nat i with
       | Some point => Js.number_or_zero (get point field)
       | None => 0%Q
       end.

Definition total (xs : list Q) : Q :=
  foldr Qplus 0%Q xs.

(** The arithmetic mean of a list of numbers; the empty list yields 0. *)
Definition mean (xs : list Q) : Q :=
  match xs with
  | [] => 0%Q
  | _ :: _ => (total xs / inject_Z (Z.of_nat (length xs)))%Q
  end.

(** The mean of the samples over the inclusive index interval [lo .. hi];
    an empty interval yields 0. *)
Definition meanOver (series : list WeatherDataPoint) (field : Field) (lo hi : Z) : Q :=
  mean (map (sample series field) (seqZ lo (hi - lo + 1))).

(** Range mode as the specification words it: both ends of the window are
    clamped into [0 .. N-1]. *)
Definition rangeValue (series : list WeatherDataPoint) (field : Field)
    (windowStart windowEnd : Z) : Q :=
  let n := Z.of_nat (length series) in
  meanOver series field (clamp windowStart 0 (n - 1)) (clamp windowEnd 0 (n - 1)).

(** The predicate [(value, comparator, thresholdValue)] for the comparators
    the sidebar offers. *)
Definition satisfied (v : Q) (t : DataSourceSidebar.Threshold) : bool :=
  let tv := DataSourceSidebar.value t in
  let op := DataSourceSidebar.operator t in
  if String.eqb op "<" then Js.lt v tv
  else if String.eqb op "<=" then negb (Js.lt tv v)
  else if String.eqb op ">" then Js.lt tv v
  else if String.eqb op ">=" then negb (Js.lt v tv)
  else if String.eqb op "=" then Qeq_bool v tv
  else false.

(** The ordered threshold list of a data source: low, medium, high. *)
Definition thresholdList (ds : DataSourceSidebar.DataSource)
  : list DataSourceSidebar.Threshold :=
  let ts := DataSourceSidebar.thresholds ds in
  [DataSourceSidebar.low ts; DataSourceSidebar.medium ts; DataSourceSidebar.high ts].

(** The neutral default of the page. *)
Definition neutral : string := "#8b5cf6".

(** First match wins; the neutral default when nothing matches. *)
Definition firstMatch (ts : list DataSourceSidebar.Threshold) (v : Q) : string :=
  match List.find (satisfied v) ts with
  | Some t => DataSourceSidebar.color t
  | None => neutral
  end.

(** The data source a polygon is assigned to: the catalog entry whose
    field the polygon names. *)
Definition assignedSource (catalog : list DataSourceSidebar.DataSource)
    (polygon : Index.Polygon) : option DataSourceSidebar.DataSource :=
  List.find (fun ds => String.eqb (DataSourceSidebar.field ds) (Index.dataSource polygon))
            catalog.

(** The color the specification gives a polygon for a representative
    value. *)
Definition colorFor (catalog : list DataSourceSidebar.DataSource)
    (polygon : Index.Polygon) (v : Q) : string :=
  match assignedSource catalog polygon with
  | Some ds => firstMatch (thresholdList ds) v
  | None => neutral
  end.

(** The representative value of the recolor pass: the sample at the start
    of the window in Instant mode, the window average in Range mode. *)
Definition representative (single : bool) (series : list WeatherDataPoint)
    (polygon : Index.Polygon) (field : Field) (startHour endHour : Z) : Q :=
  if single
  then getValueAtTime series (Index.coordinates polygon) field startHour
  else getPolygonAverage series (Index.coordinates polygon) field startHour endHour.

(** The thresholds the catalog ships for temperature, in order. *)
Definition temperatureThresholds : list DataSourceSidebar.Threshold :=
  match DataSourceSidebar.availableDataSources with
  | temperature :: _ => thresholdList temperature
  | [] => []
  end.

End Spec.

(** ** Sample inputs *)

Module Sample.

Import UseWeatherData.

Definition point (t h w : Q) : WeatherDataPoint :=
  {| time := "2024-01-01T00:00";
     temperature_2m := t; relative_humidity_2m := h; wind_speed_10m := w |}.

(** A one-hour series. *)
Definition oneHour : list WeatherDataPoint := [point 5 50 12].

(** Three hours, every field equal to the hour's own number. *)
Definition threeHours : list WeatherDataPoint :=
  [point 20 20 20; point 8 8 8; point 26 26 26].

Definition square : list Coord :=
  [(0, 0); (1, 0); (1, 1); (0, 1); (0, 0)]%Q.

Definition triangle : list Coord :=
  [(0, 0); (1, 0); (0, 1)]%Q.

Definition humid : Index.Polygon :=
  {| Index.id := "polygon-1"; Index.name := "Region 1";
     Index.coordinates := square;
     Index.dataSource := "relative_humidity_2m";
     Index.color := "#8b5cf6"; Index.value := None |}.

Definition fieldsA : list string := ["temperature_2m"; "wind_speed_10m"].
Definition fieldsB : list string := ["wind_speed_10m"; "temperature_2m"].

Definition query (fields : option (list string)) : WeatherParams :=
  {| latitude := 40; longitude := -74;
     startDate := "2024-01-01"; endDate := "2024-01-31";
     hourly := fields |}.

(** A stand-in for the number printer: the decimal digits of the integer
    part, which is what JavaScript prints for an integer. *)
Definition printInteger (q : Q) : string :=
  pretty (Qfloor q).

Definition noDates (hour : Z) : string := "2024-01-01".

(** A page with one region and a drawing session with two and with three
    pending points. *)
Definition page : Index.State :=
  {| Index.polygons := [humid]; Index.selectedPolygons := [];
     Index.timeRange := (360, 384)%Z; Index.isSingleTime := false |}.

Definition drawing (pending : list Coord) : MapView.State :=
  {| MapView.isDrawing := true; MapView.currentPolygon := pending;
     MapView.selectedPolygon := None; MapView.editingPolygonName := None;
     MapView.newPolygonName := ""; MapView.drawingLayer := false |}.

(** A slider playing a 24-hour window ending at [e], or the hour [e]. *)
Definition playing (range : bool) (e : Z) : TimelineSlider.State :=
  {| TimelineSlider.isRangeMode := range; TimelineSlider.isPlaying := true;
     TimelineSlider.currentValue := e; TimelineSlider.rangeValue := (e - 24, e)%Z;
     TimelineSlider.playSpeed := 1000 |}.

(** A two-hour answer of the provider whose wind column is missing and
    whose humidity column is one cell short. *)
Definition answer : Hourly :=
  {| hourly_time := ["2024-01-01T00:00"; "2024-01-01T01:00"];
     hourly_temperature_2m := Some [Some 3; Some 4]%Q;
     hourly_relative_humidity_2m := Some [Some 60]%Q;
     hourly_wind_speed_10m := None |}.

Definition empty : State :=
  {| data := []; loading := false; error := None; cache := ∅ |}.

(** The provider answers 200 at time 1000; the row is stored at 1200. *)
Definition up : World :=
  {| now_at_lookup := 1000;
     reply := Resolves 200 (BodyJson (Some answer));
     now_at_store := 1200;
     mockData := oneHour |}.

(** Ten minutes later the provider is unreachable. *)
Definition laterAndDown : World :=
  {| now_at_lookup := 601200;
     reply := Rejects OtherValue;
     now_at_store := 601300;
     mockData := oneHour |}.

Definition plain (name : string) : Index.Polygon :=
  {| Index.id := name; Index.name := name;
     Index.coordinates := square;
     Index.dataSource := "temperature_2m";
     Index.color := "#8b5cf6"; Index.value := None |}.

(** A hook state whose cache holds one entry for [query None], stored at
    time 0. *)
Definition storedEntry : CacheEntry :=
  {| entry_data := threeHours; timestamp := 0; params := query None |}.

Definition cached : State :=
  {| data := []; loading := false; error := None;
     cache := {[ generateCacheKey printInteger (query None) := storedEntry ]} |}.

(** The world one millisecond after the entry expired, with the provider
    answering 500. *)
Definition lateAndDown : World :=
  {| now_at_lookup := CACHE_DURATION + 1;
     reply := Resolves 500 (BodyJson None);
     now_at_store := CACHE_DURATION + 2;
     mockData := oneHour |}.

End Sample.

(** * Properties *)

(** ** Slices and sums *)

Section SliceFacts.

Context {A : Type}.

Implicit Types (l : list A) (a b : Z).

(** On bounds that are not negative, [slice] is [take] after [drop]. *)
Lemma slice_nonneg l a b :
  (0 <= a)%Z -> (0 <= b)%Z ->
  Js.slice l a b =
  take (Z.to_nat (Z.min b (Z.of_nat (length l)) - Z.min a (Z.of_nat (length l))))
       (drop (Z.to_nat (Z.min a (Z.of_nat (length l)))) l).
Proof.
  intros Ha Hb. unfold Js.slice.
  destruct (Z.ltb_spec a 0); [lia|].
  destruct (Z.ltb_spec b 0); [lia|].
  reflexivity.
Qed.

(** A slice that starts at or after the end of the list is empty. *)
Lemma slice_past_end l a b :
  (Z.of_nat (length l) <= a)%Z -> (0 <= b)%Z -> Js.slice l a b = [].
Proof.
  intros Ha Hb. rewrite slice_nonneg by lia.
  rewrite drop_ge by lia. by rewrite take_nil.
Qed.

(** Inside the list, the slice [a .. b) holds the elements at the indices
    [a], [a+1], ..., [b-1]. *)
Lemma slice_lookup l a b (i : nat) :
  (0 <= a)%Z -> (a <= b)%Z -> (b <= Z.of_nat (length l))%Z ->
  Js.slice l a b !! i =
  if decide (Z.of_nat i < b - a)%Z then l !! (Z.to_nat a + i)%nat else None.
Proof.
  intros Ha Hab Hb. rewrite slice_nonneg by lia.
  rewrite !Z.min_l by lia.
  case_decide.
  - rewrite lookup_take_lt by lia. by rewrite lookup_drop.
  - by rewrite lookup_take_ge by lia.
Qed.

Lemma slice_length l a b :
  (0 <= a)%Z -> (a <= b)%Z -> (b <= Z.of_nat (length l))%Z ->
  length (Js.slice l a b) = Z.to_nat (b - a).
Proof.
  intros Ha Hab Hb. rewrite slice_nonneg by lia.
  rewrite !Z.min_l by lia.
  rewrite length_take, length_drop. lia.
Qed.

End SliceFacts.

Section SumFacts.

Local Open Scope Q_scope.

(** The running sum of [reduce] against the total of the list. *)
Lemma foldl_total (xs : list Q) (acc : Q) :
  foldl Qplus acc xs == acc + Spec.total xs.
Proof.
  revert acc. induction xs as [|x xs IH]; intros acc; simpl.
  - by rewrite Qplus_0_r.
  - rewrite IH. by rewrite Qplus_assoc.
Qed.

Lemma reduce_total {A} (f : A -> Q) (l : list A) :
  foldl (fun acc x => acc + f x) 0 l == Spec.total (map f l).
Proof.
  change (map f l) with (f <$> l).
  rewrite <- (foldl_fmap Qplus 0 l f).
  rewrite foldl_total. by rewrite Qplus_0_l.
Qed.

(** One element: the sum from zero divided by one is the element itself. *)
Lemma singleton_average (v : Q) :
  (0 + v) / inject_Z (Z.of_nat 1) = v.
Proof.
  destruct v as [n d]. unfold Qdiv, Qmult, Qplus, Qinv. simpl.
  f_equal; lia.
Qed.

End SumFacts.

(** ** The representative value (useWeatherData.ts) *)

Section RepresentativeValue.

Import UseWeatherData.

Implicit Types (series : list WeatherDataPoint) (field : Field).

(** The numbers of a slice inside the series are the samples at its
    indices. *)
Lemma slice_samples series field (lo hi : Z) :
  (0 <= lo)%Z -> (lo <= hi + 1)%Z -> (hi < Z.of_nat (length series))%Z ->
  map (fun point => Js.number_or_zero (get point field)) (Js.slice series lo (hi + 1))
  = map (Spec.sample series field) (seqZ lo (hi - lo + 1)).
Proof.
  intros Hlo Hhi Hn. apply list_eq. intros i.
  change (map ?f ?l) with (f <$> l).
  rewrite !list_lookup_fmap, slice_lookup by lia.
  case_decide as Hi.
  - rewrite lookup_seqZ_lt by lia. simpl.
    unfold Spec.sample.
    destruct (Z.ltb_spec (lo + Z.of_nat i) 0); [lia|].
    replace (Z.to_nat (lo + Z.of_nat i)) with (Z.to_nat lo + i)%nat by lia.
    destruct (lookup_lt_is_Some_2 series (Z.to_nat lo + i)) as [p Hp]; [lia|].
    by rewrite Hp.
  - by rewrite lookup_seqZ_ge by lia.
Qed.

(** The one-element slice at an index inside the series. *)
Lemma slice_single series (s : Z) point :
  (0 <= s)%Z -> series !! Z.to_nat s = Some point ->
  Js.slice series s (s + 1) = [point].
Proof.
  intros Hs Hp. pose proof (lookup_lt_Some _ _ _ Hp) as Hlt.
  apply list_eq. intros i. rewrite slice_lookup by lia.
  destruct i as [|i]; simpl.
  - case_decide; [|lia]. by rewrite Nat.add_0_r.
  - case_decide; [lia|done].
Qed.

(** C10.  Neither computation reads the polygon's geometry: for every
    series, field, hour index and pair of window bounds, two coordinate
    lists give the same Instant-mode value and the same Range-mode value.
    The centroid bound inside [getPolygonAverage] is not part of its
    result. *)
Theorem value_ignores_geometry series field (t s e : Z) (c1 c2 : list Coord) :
  getValueAtTime series c1 field t = getValueAtTime series c2 field t
  /\ getPolygonAverage series c1 field s e = getPolygonAverage series c2 field s e.
Proof.
  unfold getValueAtTime, getPolygonAverage. split; reflexivity.
Qed.

(** C7.  For every series, field and hour index [s] in [0 .. 720], the
    Range-mode value of the window [(s, s)] is the Instant-mode value at
    [s]; both are 0 when the series is empty or [s] is past its end. *)
Theorem degenerate_range_is_instant series field (s : Z) (c : list Coord) :
  (0 <= s <= 720)%Z ->
  getPolygonAverage series c field s s = getValueAtTime series c field s.
Proof.
  intros [Hs _]. unfold getPolygonAverage, getValueAtTime.
  destruct (Nat.eqb_spec (length series) 0) as [H0|Hne]; [done|].
  destruct (Z.ltb_spec s 0) as [?|_]; [lia|]. simpl.
  rewrite Z.max_r by lia.
  destruct (Z.geb_spec s (Z.of_nat (length series))) as [Hout|Hin].
  - rewrite slice_past_end by lia. done.
  - rewrite Z.min_r by lia.
    destruct (lookup_lt_is_Some_2 series (Z.to_nat s)) as [p Hp]; [lia|].
    rewrite Hp, (slice_single _ _ _ Hs Hp). simpl.
    apply singleton_average.
Qed.

(** The same at a concrete input: hour 1 of a three-hour series. *)
Lemma degenerate_range_is_instant_at_1 :
  getPolygonAverage Sample.threeHours Sample.square temperature_2m_key 1 1
  = getValueAtTime Sample.threeHours Sample.square temperature_2m_key 1.
Proof.
  apply (degenerate_range_is_instant Sample.threeHours temperature_2m_key 1 Sample.square).
  lia.
Defined.

(** C2, as the code has it.  For every series of length N and window
    [0 <= start <= end <= 720], the Range-mode value is the arithmetic mean
    of the samples over the inclusive interval [start .. min(end, N-1)]:
    the start is not pulled back to N-1, so the interval is empty, and the
    value 0, when the series is empty or [start > N-1]. *)
Theorem range_average_is_interval_mean series field (s e : Z) (c : list Coord) :
  (0 <= s)%Z -> (s <= e)%Z -> (e <= 720)%Z ->
  getPolygonAverage series c field s e
  == Spec.meanOver series field s (Z.min e (Z.of_nat (length series) - 1)).
Proof.
  intros Hs Hse _. unfold getPolygonAverage, Spec.meanOver.
  destruct (Nat.eqb_spec (length series) 0) as [H0|Hne].
  { rewrite seqZ_nil by lia. reflexivity. }
  rewrite Z.max_r by lia.
  rewrite (Z.min_comm e).
  set (m := Z.min (Z.of_nat (length series) - 1) e).
  destruct (Z.le_gt_cases (Z.of_nat (length series)) s) as [Hout|Hin].
  { rewrite slice_past_end by lia. rewrite seqZ_nil by lia. reflexivity. }
  assert (Hlen : length (Js.slice series s (m + 1)) = Z.to_nat (m + 1 - s))
    by (apply slice_length; lia).
  destruct (Nat.eqb_spec (length (Js.slice series s (m + 1))) 0) as [Hz|_]; [lia|].
  rewrite reduce_total, slice_samples by lia.
  assert (Hn : length (map (Spec.sample series field) (seqZ s (m - s + 1)))
               = length (Js.slice series s (m + 1))).
  { rewrite length_map, length_seqZ, Hlen. lia. }
  destruct (map (Spec.sample series field) (seqZ s (m - s + 1))) as [|x xs] eqn:E.
  { simpl in Hn. lia. }
  unfold Spec.mean. by rewrite Hn.
Qed.

(** The theorem at a concrete window: hours 0 to 2 of a three-hour series. *)
Lemma range_average_is_interval_mean_at_0_2 :
  getPolygonAverage Sample.threeHours Sample.square temperature_2m_key 0 2
  == Spec.meanOver Sample.threeHours temperature_2m_key 0
       (Z.min 2 (Z.of_nat (length Sample.threeHours) - 1)).
Proof.
  apply (range_average_is_interval_mean Sample.threeHours temperature_2m_key 0 2
           Sample.square); lia.
Defined.

(** C2 as the specification words it fails: on a one-hour series the window
    [(1, 1)] starts past the end, the slice is empty and the code yields 0,
    while the mean over [clamp(1,0,0) .. clamp(1,0,0)] is the sample 5. *)
Lemma range_average_not_clamped_mean :
  getPolygonAverage Sample.oneHour Sample.square temperature_2m_key 1 1 = 0%Q
  /\ Spec.rangeValue Sample.oneHour temperature_2m_key 1 1 = 5%Q
  /\ ~ (getPolygonAverage Sample.oneHour Sample.square temperature_2m_key 1 1
        == Spec.rangeValue Sample.oneHour temperature_2m_key 1 1).
Proof.
  split; [reflexivity|]. split; [reflexivity|].
  vm_compute. discriminate.
Qed.

End RepresentativeValue.

(** ** The recolor pass (Index.tsx) *)

Section Recolor.

Import UseWeatherData.

(** First match over the catalog's temperature thresholds is the chain of
    comparisons written out in the recolor pass. *)
Lemma firstMatch_temperature (v : Q) :
  Spec.firstMatch Spec.temperatureThresholds v
  = if Js.lt v 10 then "#22c55e"
    else if Js.lt v 25 then "#f59e0b"
    else "#ef4444".
Proof.
  unfold Spec.firstMatch, Spec.temperatureThresholds, Spec.thresholdList.
  cbn [DataSourceSidebar.availableDataSources DataSourceSidebar.thresholds
       DataSourceSidebar.low DataSourceSidebar.medium DataSourceSidebar.high
       List.find].
  unfold Spec.satisfied.
  cbn [DataSourceSidebar.operator DataSourceSidebar.value DataSourceSidebar.color].
  change (String.eqb "<" "<") with true.
  change (String.eqb ">=" "<") with false.
  change (String.eqb ">=" "<=") with false.
  change (String.eqb ">=" ">") with false.
  change (String.eqb ">=" ">=") with true.
  cbv iota.
  destruct (Js.lt v 10); [reflexivity|].
  destruct (Js.lt v 25); reflexivity.
Qed.

(** The color and the value one polygon leaves the pass with. *)
Lemma recolor_color single series (s e : Z) (polygon : Index.Polygon) :
  Index.color (Index.recolor single series s e polygon)
  = Spec.firstMatch Spec.temperatureThresholds
      (Spec.representative single series polygon temperature_2m_key s e).
Proof.
  rewrite firstMatch_temperature.
  unfold Index.recolor, Spec.representative. cbn [Index.color].
  destruct single; reflexivity.
Qed.

(** C1, as the code has it.  For every polygon, whatever data source it is
    assigned to, the recolor pass computes the representative value on the
    temperature field and colors the polygon by the first match over the
    temperature thresholds of the catalog (below 10 green, below 25 orange,
    otherwise red).  One of the three always matches, so the neutral
    default is never the color after the pass. *)
Theorem recolor_applies_temperature_rule single series (s e : Z)
    (prevPolygons : list Index.Polygon) :
  map Index.color (Index.updatePolygonColors single series s e prevPolygons)
  = map (fun polygon =>
           Spec.firstMatch Spec.temperatureThresholds
             (Spec.representative single series polygon temperature_2m_key s e))
        prevPolygons
  /\ Forall (fun polygon => Index.color polygon <> Spec.neutral)
            (Index.updatePolygonColors single series s e prevPolygons).
Proof.
  unfold Index.updatePolygonColors. split.
  - induction prevPolygons as [|polygon rest IH]; [reflexivity|].
    cbn [map]. by rewrite recolor_color, IH.
  - apply Forall_forall. intros polygon' Hin.
    apply list_elem_of_In, in_map_iff in Hin as (polygon & <- & _).
    rewrite recolor_color, firstMatch_temperature.
    destruct (Js.lt _ 10); [discriminate|].
    destruct (Js.lt _ 25); discriminate.
Qed.

(** C1 as the specification words it fails: a polygon assigned to humidity
    over a series whose every field reads 20 at hour 0 comes out orange
    (20 is between 10 and 25), while the first humidity threshold that 20
    satisfies, [< 30], is green. *)
Lemma recolor_ignores_assigned_source :
  map Index.color (Index.updatePolygonColors false Sample.threeHours 0 0 [Sample.humid])
  = ["#f59e0b"]
  /\ Spec.representative false Sample.threeHours Sample.humid relative_humidity_2m_key 0 0
     = 20%Q
  /\ Spec.representative false Sample.threeHours Sample.humid temperature_2m_key 0 0
     = 20%Q
  /\ Spec.colorFor DataSourceSidebar.availableDataSources Sample.humid 20 = "#22c55e".
Proof.
  repeat split; reflexivity.
Qed.

End Recolor.

(** ** The cache key (useWeatherData.ts) *)

Section CacheKey.

Import UseWeatherData.

Variable numberToString : Q -> string.

(** With the first four components equal, the keys differ exactly where
    the field texts differ: the common prefix cancels. *)
Lemma cache_key_equal_iff (p1 p2 : WeatherParams) :
  latitude p1 = latitude p2 -> longitude p1 = longitude p2 ->
  startDate p1 = startDate p2 -> endDate p1 = endDate p2 ->
  (generateCacheKey numberToString p1 = generateCacheKey numberToString p2
   <-> hourlyText p1 = hourlyText p2).
Proof.
  intros Hlat Hlon Hs He.
  unfold generateCacheKey. rewrite Hlat, Hlon, Hs, He. split.
  - intros Hk. by repeat apply String.app_inj in Hk.
  - by intros ->.
Qed.

(** C3, as the code has it.  The key is a function of latitude, longitude,
    startDate, endDate and the field list in the order given: two records
    that agree on the first four and carry the same field list get the same
    key, and, more finely, their keys are equal exactly when the comma-joined
    texts of their field lists (["default"] for an absent or empty list) are
    equal.  The list is not sorted. *)
Theorem cache_key_follows_field_text (p1 p2 : WeatherParams) :
  latitude p1 = latitude p2 -> longitude p1 = longitude p2 ->
  startDate p1 = startDate p2 -> endDate p1 = endDate p2 ->
  (hourly p1 = hourly p2 ->
   generateCacheKey numberToString p1 = generateCacheKey numberToString p2)
  /\ (generateCacheKey numberToString p1 = generateCacheKey numberToString p2
      <-> hourlyText p1 = hourlyText p2).
Proof.
  intros Hlat Hlon Hs He.
  pose proof (cache_key_equal_iff p1 p2 Hlat Hlon Hs He) as Hiff.
  split; [|exact Hiff].
  intros Hh. apply Hiff. unfold hourlyText. by rewrite Hh.
Qed.

End CacheKey.

Section CacheKeyExamples.

Import UseWeatherData.

(** The theorem on a query with no field list and the same query with an
    empty one: both texts are ["default"], so the keys agree. *)
Lemma cache_key_follows_field_text_default :
  generateCacheKey Sample.printInteger (Sample.query None)
  = generateCacheKey Sample.printInteger (Sample.query (Some [])).
Proof.
  apply (cache_key_follows_field_text Sample.printInteger
           (Sample.query None) (Sample.query (Some [])));
    reflexivity.
Defined.

(** C3 as the specification words it fails: two queries that differ only
    in the order of their two fields get different keys, with the integer
    printer and with any other. *)
Lemma cache_key_depends_on_field_order :
  Sample.fieldsA ≡ₚ Sample.fieldsB
  /\ generateCacheKey Sample.printInteger (Sample.query (Some Sample.fieldsA))
     = "40_-74_2024-01-01_2024-01-31_temperature_2m,wind_speed_10m"
  /\ generateCacheKey Sample.printInteger (Sample.query (Some Sample.fieldsB))
     = "40_-74_2024-01-01_2024-01-31_wind_speed_10m,temperature_2m"
  /\ (forall numberToString,
        generateCacheKey numberToString (Sample.query (Some Sample.fieldsA))
        <> generateCacheKey numberToString (Sample.query (Some Sample.fieldsB))).
Proof.
  split; [apply perm_swap|]. split; [reflexivity|]. split; [reflexivity|].
  intros numberToString Hk.
  apply (cache_key_equal_iff numberToString) in Hk; [|reflexivity..].
  discriminate Hk.
Qed.

End CacheKeyExamples.

(** ** The cache and the fetch (useWeatherData.ts) *)

Section Fetch.

Import UseWeatherData.

Variable numberToString : Q -> string.

Implicit Types (st : State) (p : WeatherParams) (w : World) (e : CacheEntry).

(** An entry is fresh exactly while it is younger than 30 minutes. *)
Lemma fresh_iff (now : Z) e :
  fresh now e = true <-> (now - timestamp e < 30 * 60 * 1000)%Z.
Proof.
  unfold fresh, CACHE_DURATION. apply Z.ltb_lt.
Qed.

(** The cache answers exactly for a stored entry that is fresh. *)
Lemma cacheHit_iff st (key : string) (now : Z) e :
  cacheHit st key now = Some e
  <-> cache st !! key = Some e /\ (now - timestamp e < CACHE_DURATION)%Z.
Proof.
  unfold cacheHit, fresh.
  destruct (cache st !! key) as [e'|]; [|split; [discriminate|intros [? _]; discriminate]].
  destruct (Z.ltb_spec (now - timestamp e') CACHE_DURATION) as [Hlt|Hge]; split.
  - intros [= ->]. done.
  - intros [[= ->] _]. done.
  - discriminate.
  - intros [[= ->] ?]. lia.
Qed.

(** Every way a request fails comes out of the [try] block as a thrown
    value, and nothing else does. *)
Lemma receive_failure (r : Reply) :
  RequestFailure r <-> exists err, receive r = inl err.
Proof.
  split.
  - intros [err|status body Hok|status err|status]; simpl; eauto.
    + rewrite Hok. simpl. eauto.
    + destruct (ok status); simpl; eauto.
    + destruct (ok status); simpl; eauto.
  - intros [err Hr]. destruct r as [err'|status body]; [apply network_error|].
    simpl in Hr. destruct (ok status) eqn:Hok; [|by apply bad_status].
    simpl in Hr. destruct body as [err'|[h|]].
    + apply unreadable_body.
    + discriminate Hr.
    + apply missing_hourly.
Qed.

(** What a call does once the cache has no answer and the request fails. *)
Lemma fetch_failure st p w (err : Thrown) :
  cacheHit st (generateCacheKey numberToString p) (now_at_lookup w) = None ->
  receive (reply w) = inl err ->
  fetchWeatherData numberToString st p w
  = ({| data := mockData w; loading := false; error := Some (errorMessage err);
        cache := cache st |},
     [fetch (archiveRequest numberToString p);
      toast {| title := "Error Loading Weather Data";
               description := errorMessage err;
               variant := Some "destructive" |};
      toast {| title := "Using Mock Data";
               description := "Switched to simulated weather data for demonstration.";
               variant := Some "default" |}]).
Proof.
  intros Hmiss Hr. unfold fetchWeatherData. by rewrite Hmiss, Hr.
Qed.

(** C5.  A call that goes to the network and fails (the request is
    rejected, the status is not 2xx, the body cannot be read or has no
    [hourly]) leaves the cache map as it was, so nothing new is written to
    storage; the call shows the synthesized series, records the error
    message, clears [loading], and tells the user with two toasts. *)
Theorem failed_fetch_keeps_cache st p w :
  cacheHit st (generateCacheKey numberToString p) (now_at_lookup w) = None ->
  RequestFailure (reply w) ->
  exists err,
    receive (reply w) = inl err
    /\ cache (fst (fetchWeatherData numberToString st p w)) = cache st
    /\ saveCache (fst (fetchWeatherData numberToString st p w)) = saveCache st
    /\ data (fst (fetchWeatherData numberToString st p w)) = mockData w
    /\ error (fst (fetchWeatherData numberToString st p w)) = Some (errorMessage err)
    /\ loading (fst (fetchWeatherData numberToString st p w)) = false
    /\ snd (fetchWeatherData numberToString st p w)
       = [fetch (archiveRequest numberToString p);
          toast {| title := "Error Loading Weather Data";
                   description := errorMessage err;
                   variant := Some "destructive" |};
          toast {| title := "Using Mock Data";
                   description := "Switched to simulated weather data for demonstration.";
                   variant := Some "default" |}].
Proof.
  intros Hmiss Hfail. apply receive_failure in Hfail as [err Hr].
  exists err. rewrite (fetch_failure st p w err Hmiss Hr).
  unfold saveCache. repeat split; done.
Qed.

(** A stored entry that has reached 30 minutes gives no cache answer. *)
Lemma expired_miss st (key : string) (now : Z) e :
  cache st !! key = Some e ->
  (CACHE_DURATION <= now - timestamp e)%Z ->
  cacheHit st key now = None.
Proof.
  intros He Hage. unfold cacheHit, fresh. rewrite He.
  destruct (Z.ltb_spec (now - timestamp e) CACHE_DURATION); [lia|done].
Qed.

(** Loading keeps exactly the stored entries that are fresh. *)
Lemma loadCache_lookup (now : Z) (stored : gmap string CacheEntry) st (key : string) e :
  cache (loadCache now (Parsed stored) st) !! key = Some e
  <-> stored !! key = Some e /\ (now - timestamp e < CACHE_DURATION)%Z.
Proof.
  unfold loadCache. cbn [cache].
  rewrite map_lookup_filter_Some. cbn [snd].
  unfold fresh. by rewrite Z.ltb_lt.
Qed.

(** C6.  An entry is valid exactly while [now - timestamp < 30 minutes]:
    that is the test of [fresh], and the lookup of a call answers with the
    entry stored under the key exactly when that test holds.  So a call
    made while the entry is younger than 30 minutes shows its series and
    sends no request; a call made when its age is 30 minutes or more (so
    also at 30 minutes and 1 ms) finds no cache answer, sends the archive
    request first, and shows the same series, error and toasts as a call
    on the state without that entry.  Loading from storage keeps an entry
    exactly when it is fresh. *)
Theorem cache_entry_valid_iff_fresh st p w e :
  cache st !! generateCacheKey numberToString p = Some e ->
  (forall (now : Z) e', fresh now e' = true <-> (now - timestamp e' < 30 * 60 * 1000)%Z)
  /\ (forall (now : Z) e',
        cacheHit st (generateCacheKey numberToString p) now = Some e'
        <-> e' = e /\ (now - timestamp e < CACHE_DURATION)%Z)
  /\ ((now_at_lookup w - timestamp e < CACHE_DURATION)%Z ->
      fetchWeatherData numberToString st p w
      = ({| data := entry_data e; loading := false; error := None; cache := cache st |},
         [toast {| title := "Data Loaded from Cache";
                   description := "Using cached weather data for the selected region.";
                   variant := None |}])
      /\ requests (snd (fetchWeatherData numberToString st p w)) = [])
  /\ ((CACHE_DURATION <= now_at_lookup w - timestamp e)%Z ->
      cacheHit st (generateCacheKey numberToString p) (now_at_lookup w) = None
      /\ (exists rest,
            snd (fetchWeatherData numberToString st p w)
            = fetch (archiveRequest numberToString p) :: rest)
      /\ (forall st0,
            st0 = {| data := data st; loading := loading st; error := error st;
                     cache := delete (generateCacheKey numberToString p) (cache st) |} ->
            snd (fetchWeatherData numberToString st p w)
            = snd (fetchWeatherData numberToString st0 p w)
            /\ data (fst (fetchWeatherData numberToString st p w))
               = data (fst (fetchWeatherData numberToString st0 p w))
            /\ error (fst (fetchWeatherData numberToString st p w))
               = error (fst (fetchWeatherData numberToString st0 p w))
            /\ loading (fst (fetchWeatherData numberToString st p w))
               = loading (fst (fetchWeatherData numberToString st0 p w))))
  /\ (forall (now : Z) (stored : gmap string CacheEntry) st1 (key : string) e',
        cache (loadCache now (Parsed stored) st1) !! key = Some e'
        <-> stored !! key = Some e' /\ (now - timestamp e' < CACHE_DURATION)%Z).
Proof.
  intros He.
  split; [apply fresh_iff|]. split; [|split; [|split]].
  - intros now e'. rewrite cacheHit_iff, He. split.
    + by intros [[= ->] Hage].
    + by intros [-> Hage].
  - intros Hage.
    assert (Hhit : cacheHit st (generateCacheKey numberToString p) (now_at_lookup w)
                   = Some e) by (by apply cacheHit_iff).
    unfold fetchWeatherData. rewrite Hhit. by split.
  - intros Hage.
    pose proof (expired_miss st _ _ e He Hage) as Hmiss.
    split; [exact Hmiss|]. split.
    + unfold fetchWeatherData. rewrite Hmiss.
      destruct (receive (reply w)); simpl; eauto.
    + intros st0 ->. unfold fetchWeatherData. rewrite Hmiss.
      unfold cacheHit. cbn [cache]. rewrite lookup_delete_eq.
      destruct (receive (reply w)); done.
  - intros. apply loadCache_lookup.
Qed.

End Fetch.

Section FetchExamples.

Import UseWeatherData.

(** C5 at a concrete call: the only entry has expired and the provider
    answers 500. *)
Lemma failed_fetch_keeps_cache_on_500 :
  exists err,
    receive (reply Sample.lateAndDown) = inl err
    /\ cache (fst (fetchWeatherData Sample.printInteger Sample.cached
                     (Sample.query None) Sample.lateAndDown))
       = cache Sample.cached
    /\ saveCache (fst (fetchWeatherData Sample.printInteger Sample.cached
                         (Sample.query None) Sample.lateAndDown))
       = saveCache Sample.cached
    /\ data (fst (fetchWeatherData Sample.printInteger Sample.cached
                    (Sample.query None) Sample.lateAndDown))
       = mockData Sample.lateAndDown
    /\ error (fst (fetchWeatherData Sample.printInteger Sample.cached
                     (Sample.query None) Sample.lateAndDown))
       = Some (errorMessage err)
    /\ loading (fst (fetchWeatherData Sample.printInteger Sample.cached
                       (Sample.query None) Sample.lateAndDown))
       = false
    /\ snd (fetchWeatherData Sample.printInteger Sample.cached
              (Sample.query None) Sample.lateAndDown)
       = [fetch (archiveRequest Sample.printInteger (Sample.query None));
          toast {| title := "Error Loading Weather Data";
                   description := errorMessage err;
                   variant := Some "destructive" |};
          toast {| title := "Using Mock Data";
                   description := "Switched to simulated weather data for demonstration.";
                   variant := Some "default" |}].
Proof.
  apply (failed_fetch_keeps_cache Sample.printInteger Sample.cached
           (Sample.query None) Sample.lateAndDown).
  - vm_compute. reflexivity.
  - apply bad_status. reflexivity.
Defined.

(** C6 at concrete calls on an entry stored at time 0: at clock 1000 the
    call is answered from the cache without a request; at 30 minutes and
    1 ms the lookup finds nothing. *)
Lemma cache_entry_valid_iff_fresh_sample :
  requests (snd (fetchWeatherData Sample.printInteger Sample.cached
                   (Sample.query None) Sample.up)) = []
  /\ cacheHit Sample.cached (generateCacheKey Sample.printInteger (Sample.query None))
              (now_at_lookup Sample.lateAndDown) = None.
Proof.
  split.
  - destruct (cache_entry_valid_iff_fresh Sample.printInteger Sample.cached
                (Sample.query None) Sample.up Sample.storedEntry)
      as (_ & _ & Hvalid & _).
    + vm_compute. reflexivity.
    + apply Hvalid. vm_compute. reflexivity.
  - destruct (cache_entry_valid_iff_fresh Sample.printInteger Sample.cached
                (Sample.query None) Sample.lateAndDown Sample.storedEntry)
      as (_ & _ & _ & Hexpired & _).
    + vm_compute. reflexivity.
    + apply Hexpired. vm_compute. discriminate.
Defined.

End FetchExamples.

(** ** The data source sidebar *)

Section Sidebar.

Import DataSourceSidebar.

Implicit Types (st : State) (ev : Event) (selected : list string).

(** Filtering out one index drops one element when the index is in range
    and none otherwise. *)
Lemma filter_from_length {A} (l : list A) (k index : nat) :
  length (Js.filter_from (fun _ i => negb (i =? index)%nat) k l)
  = if decide (k <= index < k + length l)%nat then (length l - 1)%nat else length l.
Proof.
  revert k. induction l as [|x l IH]; intros k; simpl.
  - case_decide; lia.
  - destruct (Nat.eqb_spec k index) as [->|Hne]; simpl; rewrite IH;
      repeat case_decide; lia.
Qed.

Lemma removeDataSource_length st (index : nat) :
  (index < length (activeDataSources st))%nat ->
  length (activeDataSources (removeDataSource st index))
  = (length (activeDataSources st) - 1)%nat.
Proof.
  intros Hi. unfold removeDataSource, Js.filteri. cbn [activeDataSources].
  rewrite filter_from_length. case_decide; lia.
Qed.

Lemma addDataSource_length st :
  (length (activeDataSources st) <= length (activeDataSources (addDataSource st))
   <= Nat.max (length (activeDataSources st)) 3)%nat.
Proof.
  unfold addDataSource.
  destruct (Nat.ltb_spec (length (activeDataSources st)) 3); [|lia].
  destruct (List.find _ _); [|lia].
  cbn [withActive activeDataSources]. rewrite length_app. simpl. lia.
Qed.

(** Every handler but add and remove keeps the number of rows. *)
Lemma handle_length selected st ev :
  match ev with ClickAdd | ClickRemove _ => True | _ =>
    length (activeDataSources (handle selected st ev)) = length (activeDataSources st)
  end.
Proof.
  destruct ev as [|index|index|index|index v|index level e|]; try exact I; simpl.
  - unfold toggleDataSourceVisibility.
    destruct (activeDataSources st !! index); [|done].
    cbn [withActive activeDataSources]. by rewrite length_insert.
  - done.
  - destruct (List.find _ _); [|done].
    destruct (activeDataSources st !! index); [|done].
    cbn [updateDataSource fst withActive activeDataSources]. by rewrite length_insert.
  - unfold updateThreshold.
    destruct (activeDataSources st !! index); [|done].
    cbn [activeDataSources]. unfold writeThrough. by rewrite length_map.
  - done.
Qed.

(** One user action keeps between one and three rows. *)
Lemma step_bounds selected st ev :
  (1 <= length (activeDataSources st) <= 3)%nat ->
  (1 <= length (activeDataSources (step selected st ev)) <= 3)%nat.
Proof.
  intros Hn. unfold step. destruct (rendered st ev) eqn:Hr; [|done].
  destruct ev as [|index|index|index|index v|index level e|].
  - cbn [handle]. pose proof (addDataSource_length st). lia.
  - cbn [rendered] in Hr. apply andb_true_iff in Hr as [Hi H1].
    apply Nat.ltb_lt in Hi, H1. cbn [handle].
    rewrite removeDataSource_length by done. lia.
  - by rewrite (handle_length selected st (ClickToggle index)).
  - by rewrite (handle_length selected st (ClickSettings index)).
  - by rewrite (handle_length selected st (SelectField index v)).
  - by rewrite (handle_length selected st (ChangeThreshold index level e)).
  - by rewrite (handle_length selected st ClickLegend).
Qed.

Lemma run_bounds selected st (evs : list Event) :
  (1 <= length (activeDataSources st) <= 3)%nat ->
  (1 <= length (activeDataSources (run selected st evs)) <= 3)%nat.
Proof.
  unfold run. revert st. induction evs as [|ev evs IH]; intros st Hn; [done|].
  simpl. apply IH, step_bounds, Hn.
Qed.

(** C4, as the code has it.  [removeDataSource] removes the row at the
    index without looking at how many rows are left; the guard is in the
    rendering, which shows the trash button only while more than one
    source is active.  So after any sequence of actions on the rendered
    sidebar there are between one and three active sources, and with a
    single source a click on remove reaches no handler and the state
    stays as it is. *)
Theorem sidebar_keeps_a_source selected (evs : list Event) (index : nat) :
  (1 <= length (activeDataSources (run selected initialState evs)) <= 3)%nat
  /\ (length (activeDataSources (run selected initialState evs)) = 1%nat ->
      step selected (run selected initialState evs) (ClickRemove index)
      = run selected initialState evs).
Proof.
  split.
  - apply run_bounds. simpl. lia.
  - intros H1. unfold step, rendered. rewrite H1.
    by rewrite andb_false_r.
Qed.

(** The theorem after add, add, remove, remove: one source is left and the
    next remove does nothing. *)
Lemma sidebar_keeps_a_source_after_two_removes :
  step [] (run [] initialState [ClickAdd; ClickAdd; ClickRemove 0; ClickRemove 0])
       (ClickRemove 0)
  = run [] initialState [ClickAdd; ClickAdd; ClickRemove 0; ClickRemove 0].
Proof.
  apply (sidebar_keeps_a_source [] [ClickAdd; ClickAdd; ClickRemove 0; ClickRemove 0] 0).
  reflexivity.
Defined.

(** C4 as the specification words it fails: called on the initial state,
    where temperature is the only active source, [removeDataSource] is not
    refused and leaves no source. *)
Lemma removeDataSource_removes_last :
  length (activeDataSources initialState) = 1%nat
  /\ activeDataSources (removeDataSource initialState 0) = [].
Proof.
  split; reflexivity.
Qed.

End Sidebar.

(** ** The drawing workflow (MapView.tsx) *)

Section Drawing.

Import UseWeatherData.

Variable getDateFromHour : Z -> string.

Implicit Types (page : Index.State) (view : MapView.State).

(** With fewer than three pending points the Finish button changes
    nothing. *)
Lemma finish_too_few (now : Z) page view :
  (length (MapView.currentPolygon view) < 3)%nat ->
  MapView.finishDrawing (Index.polygons page) now view
  = (view,
     [MapView.toast {| title := "Invalid Polygon";
                       description := "A polygon needs at least 3 points.";
                       variant := Some "destructive" |}])
  /\ Dashboard.clickFinish getDateFromHour now page view = (page, view).
Proof.
  intros Hlt. unfold Dashboard.clickFinish, MapView.finishDrawing.
  destruct (Nat.ltb_spec (length (MapView.currentPolygon view)) 3); [|lia].
  split; reflexivity.
Qed.

(** C8.  With exactly 2 pending points [finishDrawing] hands no polygon to
    the page, the page's polygons are unchanged, and the view (drawing
    flag, pending points and all) stays as it was.  With exactly 3 pending
    points it hands over exactly one polygon, appended to the page's
    polygons, whose ring has 4 vertices, the first equal to the last, and
    the view is idle again with no pending point. *)
Theorem finish_drawing_two_or_three (now : Z) page view :
  (length (MapView.currentPolygon view) = 2%nat ->
   MapView.created (snd (MapView.finishDrawing (Index.polygons page) now view)) = []
   /\ fst (MapView.finishDrawing (Index.polygons page) now view) = view
   /\ Dashboard.clickFinish getDateFromHour now page view = (page, view))
  /\ (length (MapView.currentPolygon view) = 3%nat ->
      exists polygon,
        MapView.created (snd (MapView.finishDrawing (Index.polygons page) now view))
        = [polygon]
        /\ Index.polygons (fst (Dashboard.clickFinish getDateFromHour now page view))
           = Index.polygons page ++ [polygon]
        /\ length (Index.coordinates polygon) = 4%nat
        /\ (exists vertex, head (Index.coordinates polygon) = Some vertex
                           /\ last (Index.coordinates polygon) = Some vertex)
        /\ MapView.isDrawing (snd (Dashboard.clickFinish getDateFromHour now page view))
           = false
        /\ MapView.currentPolygon
             (snd (Dashboard.clickFinish getDateFromHour now page view)) = []).
Proof.
  split.
  - intros H2.
    destruct (finish_too_few now page view) as [Hf Hc]; [lia|].
    rewrite Hf. by repeat split.
  - intros H3.
    destruct (MapView.currentPolygon view) as [|a [|b [|c [|d rest]]]] eqn:Hcp;
      try discriminate H3.
    unfold Dashboard.clickFinish, MapView.finishDrawing. rewrite Hcp.
    cbn [length Nat.ltb Nat.leb].
    eexists. split.
    { cbn [snd]. destruct (MapView.drawingLayer view); reflexivity. }
    split.
    { destruct (MapView.drawingLayer view); reflexivity. }
    cbn [Index.coordinates take app length fst snd MapView.isDrawing
         MapView.currentPolygon].
    split; [reflexivity|]. split; [by exists a|]. split; reflexivity.
Qed.

End Drawing.

Section DrawingExamples.

Import UseWeatherData.

(** C8 with two and with three concrete pending points. *)
Lemma finish_drawing_two_or_three_on_samples :
  Dashboard.clickFinish Sample.noDates 1700000000000 Sample.page
    (Sample.drawing (take 2 Sample.triangle))
  = (Sample.page, Sample.drawing (take 2 Sample.triangle))
  /\ exists polygon,
       MapView.created
         (snd (MapView.finishDrawing (Index.polygons Sample.page) 1700000000000
                 (Sample.drawing Sample.triangle)))
       = [polygon].
Proof.
  pose proof (finish_drawing_two_or_three Sample.noDates 1700000000000 Sample.page
                (Sample.drawing (take 2 Sample.triangle))) as [H2 _].
  pose proof (finish_drawing_two_or_three Sample.noDates 1700000000000 Sample.page
                (Sample.drawing Sample.triangle)) as [_ H3].
  split.
  - apply H2. reflexivity.
  - destruct (H3 eq_refl) as (polygon & Hcreated & _). by exists polygon.
Defined.

End DrawingExamples.

(** ** Playback (TimelineSlider.tsx) *)

Section Playback.

Import TimelineSlider.

Local Open Scope Z_scope.

Implicit Types (st : State).

(** A tick in range mode, below the last hour and at it. *)
Lemma tick_range st :
  isRangeMode st = true -> fst (rangeValue st) <= snd (rangeValue st) ->
  (snd (rangeValue st) < 719 ->
   rangeValue (tick st) = (fst (rangeValue st) + 1, snd (rangeValue st) + 1)
   /\ isPlaying (tick st) = isPlaying st)
  /\ (719 <= snd (rangeValue st) ->
      rangeValue (tick st) = rangeValue st /\ isPlaying (tick st) = false).
Proof.
  intros Hmode Hord. unfold tick, maxHours. rewrite Hmode.
  destruct (rangeValue st) as [s e]. cbn [fst snd] in *.
  split; intros He.
  - rewrite (Z.min_l (e + 1)) by lia.
    destruct (Z.geb_spec (e + 1) 720); [lia|].
    cbn [rangeValue isPlaying]. split; [|done].
    f_equal. lia.
  - destruct (Z.geb_spec (Z.min (e + 1) 720) 720); [done|lia].
Qed.

(** A tick in single-point mode, below the last hour and at it. *)
Lemma tick_instant st :
  isRangeMode st = false ->
  (currentValue st < 719 ->
   currentValue (tick st) = currentValue st + 1 /\ isPlaying (tick st) = isPlaying st)
  /\ (719 <= currentValue st ->
      currentValue (tick st) = currentValue st /\ isPlaying (tick st) = false).
Proof.
  intros Hmode. unfold tick, maxHours. rewrite Hmode.
  split; intros Hh.
  - rewrite Z.min_l by lia.
    destruct (Z.geb_spec (currentValue st + 1) 720); [lia|]. done.
  - destruct (Z.geb_spec (Z.min (currentValue st + 1) 720) 720); [done|lia].
Qed.

(** A tick leaves the values it does not advance alone. *)
Lemma tick_other st :
  isRangeMode (tick st) = isRangeMode st
  /\ (isRangeMode st = true -> currentValue (tick st) = currentValue st)
  /\ (isRangeMode st = false -> rangeValue (tick st) = rangeValue st).
Proof.
  unfold tick. destruct (isRangeMode st) eqn:Hmode.
  - destruct (_ >=? _); cbn; rewrite ?Hmode; by repeat split.
  - destruct (_ >=? _); cbn; rewrite ?Hmode; by repeat split.
Qed.

Lemma playback_inHorizon st : inHorizon st -> inHorizon (playback st).
Proof.
  intros (Hc & Hr & Hmax). unfold playback.
  destruct (isPlaying st); [|done].
  destruct (tick_other st) as (_ & Hcur & Hrange).
  unfold inHorizon, maxHours in *.
  destruct (isRangeMode st) eqn:Hmode.
  - rewrite Hcur by done.
    destruct (tick_range st Hmode) as [Hlow Hhigh]; [lia|].
    destruct (Z.lt_ge_cases (snd (rangeValue st)) 719) as [He|He].
    + destruct (Hlow He) as [-> _]. cbn [fst snd]. lia.
    + destruct (Hhigh He) as [-> _]. lia.
  - rewrite Hrange by done.
    destruct (tick_instant st Hmode) as [Hlow Hhigh].
    destruct (Z.lt_ge_cases (currentValue st) 719) as [He|He].
    + destruct (Hlow He) as [-> _]. lia.
    + destruct (Hhigh He) as [-> _]. lia.
Qed.

Lemma playbackN_inHorizon (n : nat) st : inHorizon st -> inHorizon (playbackN n st).
Proof.
  intros Hst. unfold playbackN. induction n as [|n IH]; [done|].
  cbn [Nat.iter nat_rect]. by apply playback_inHorizon.
Qed.

Lemma inHorizon_window st :
  inHorizon st -> 0 <= fst (window st) <= snd (window st) /\ snd (window st) <= 720.
Proof.
  intros (Hc & Hr & Hmax). unfold window, maxHours in *.
  destruct (isRangeMode st); cbn [fst snd]; lia.
Qed.

(** C9, as the code has it.  While playback is active and the window lies
    in [0 .. 720]: a tick whose advancing edge (the end, or the hour) is
    below 719 advances start and end, or the hour, by 1, keeps the width
    and stays active; a tick whose edge is at 719 or beyond leaves the
    window where it is and pauses playback, so playback never moves the
    edge onto 720; and after any number of ticks the window is still
    inside [0 .. 720]. *)
Theorem playback_advances_or_stops st :
  isPlaying st = true -> inHorizon st ->
  (isRangeMode st = true ->
   (snd (rangeValue st) < 719 ->
    rangeValue (playback st) = (fst (rangeValue st) + 1, snd (rangeValue st) + 1)
    /\ isPlaying (playback st) = true)
   /\ (719 <= snd (rangeValue st) ->
       rangeValue (playback st) = rangeValue st /\ isPlaying (playback st) = false))
  /\ (isRangeMode st = false ->
      (currentValue st < 719 ->
       currentValue (playback st) = currentValue st + 1
       /\ isPlaying (playback st) = true)
      /\ (719 <= currentValue st ->
          currentValue (playback st) = currentValue st
          /\ isPlaying (playback st) = false))
  /\ (forall n : nat,
        0 <= fst (window (playbackN n st)) <= snd (window (playbackN n st))
        /\ snd (window (playbackN n st)) <= 720).
Proof.
  intros Hplay Hst. unfold playback. rewrite Hplay.
  split; [|split].
  - intros Hmode. destruct Hst as (_ & Hr & _).
    destruct (tick_range st Hmode) as [Hlow Hhigh]; [lia|].
    rewrite Hplay in Hlow. by split.
  - intros Hmode. destruct (tick_instant st Hmode) as [Hlow Hhigh].
    rewrite Hplay in Hlow. by split.
  - intros n. by apply inHorizon_window, playbackN_inHorizon.
Qed.

(** The theorem on a 24-hour window ending at hour 400. *)
Lemma playback_advances_or_stops_at_400 :
  rangeValue (playback (Sample.playing true 400)) = (377, 401)
  /\ isPlaying (playback (Sample.playing true 400)) = true.
Proof.
  destruct (playback_advances_or_stops (Sample.playing true 400)) as (Hrange & _ & _).
  - reflexivity.
  - unfold inHorizon, maxHours. simpl. lia.
  - destruct (Hrange eq_refl) as [Hlow _]. apply Hlow. simpl. lia.
Defined.

(** C9 as the specification words it fails: a tick on the playing window
    [(695, 719)] does not advance it to [(696, 720)]; the window stays and
    playback pauses.  The same in single-point mode at hour 719. *)
Lemma playback_stops_before_720 :
  isPlaying (Sample.playing true 719) = true
  /\ rangeValue (Sample.playing true 719) = (695, 719)
  /\ rangeValue (playback (Sample.playing true 719)) = (695, 719)
  /\ isPlaying (playback (Sample.playing true 719)) = false
  /\ currentValue (playback (Sample.playing false 719)) = 719
  /\ isPlaying (playback (Sample.playing false 719)) = false.
Proof.
  repeat split; reflexivity.
Qed.

End Playback.

(** * Further properties of the code *)

(** ** The cache through a whole call (useWeatherData.ts) *)

Section CacheLife.

Import UseWeatherData.

Variable numberToString : Q -> string.

Implicit Types (st : State) (p : WeatherParams) (w : World) (e : CacheEntry).

Lemma fetch_hit st p w e :
  cacheHit st (generateCacheKey numberToString p) (now_at_lookup w) = Some e ->
  fetchWeatherData numberToString st p w
  = ({| data := entry_data e; loading := false; error := None; cache := cache st |},
     [toast {| title := "Data Loaded from Cache";
               description := "Using cached weather data for the selected region.";
               variant := None |}]).
Proof.
  intros Hhit. unfold fetchWeatherData. by rewrite Hhit.
Qed.

Lemma fetch_success st p w (rows : list WeatherDataPoint) :
  cacheHit st (generateCacheKey numberToString p) (now_at_lookup w) = None ->
  receive (reply w) = inr rows ->
  fetchWeatherData numberToString st p w
  = ({| data := rows; loading := false; error := None;
        cache := <[generateCacheKey numberToString p :=
                     {| entry_data := rows; timestamp := now_at_store w; params := p |}]>
                   (cache st) |},
     [fetch (archiveRequest numberToString p);
      toast {| title := "Weather Data Loaded";
               description := "Fetched " +:+ pretty (length rows)
                              +:+ " data points from Open-Meteo API.";
               variant := None |}]).
Proof.
  intros Hmiss Hr. unfold fetchWeatherData. by rewrite Hmiss, Hr.
Qed.

(** A fresh entry under the key answers the call. *)
Lemma stored_fresh_hit st (key : string) (now : Z) e :
  cache st !! key = Some e -> (now - timestamp e < CACHE_DURATION)%Z ->
  cacheHit st key now = Some e.
Proof.
  intros He Hage. unfold cacheHit, fresh. rewrite He.
  destruct (Z.ltb_spec (now - timestamp e) CACHE_DURATION); [done|lia].
Qed.

(** Round trip.  After a call that fetched and stored a series, a second
    call with the same parameters made less than 30 minutes after the
    store shows that series again, sends no request and leaves the cache
    as the first call left it, whatever the provider would answer now. *)
Theorem refetch_within_ttl_hits st p w1 w2 (rows : list WeatherDataPoint) :
  cacheHit st (generateCacheKey numberToString p) (now_at_lookup w1) = None ->
  receive (reply w1) = inr rows ->
  (now_at_lookup w2 - now_at_store w1 < CACHE_DURATION)%Z ->
  data (fst (fetchWeatherData numberToString
               (fst (fetchWeatherData numberToString st p w1)) p w2)) = rows
  /\ requests (snd (fetchWeatherData numberToString
                      (fst (fetchWeatherData numberToString st p w1)) p w2)) = []
  /\ error (fst (fetchWeatherData numberToString
                   (fst (fetchWeatherData numberToString st p w1)) p w2)) = None
  /\ cache (fst (fetchWeatherData numberToString
                   (fst (fetchWeatherData numberToString st p w1)) p w2))
     = cache (fst (fetchWeatherData numberToString st p w1)).
Proof.
  intros Hmiss Hr Hage.
  rewrite (fetch_success st p w1 rows Hmiss Hr). cbn [fst].
  rewrite (fetch_hit _ p w2
             {| entry_data := rows; timestamp := now_at_store w1; params := p |}).
  - by repeat split.
  - apply stored_fresh_hit; [|done].
    cbn [cache]. by rewrite lookup_insert_eq.
Qed.

(** A call that stores a series writes one entry, under the key of its
    parameters: every other key keeps what it had, and the cache grows by
    one entry when the key was free and keeps its size when an expired
    entry is overwritten. *)
Theorem stored_fetch_touches_one_key st p w (rows : list WeatherDataPoint) :
  cacheHit st (generateCacheKey numberToString p) (now_at_lookup w) = None ->
  receive (reply w) = inr rows ->
  cache (fst (fetchWeatherData numberToString st p w))
    !! generateCacheKey numberToString p
  = Some {| entry_data := rows; timestamp := now_at_store w; params := p |}
  /\ (forall key : string,
        key <> generateCacheKey numberToString p ->
        cache (fst (fetchWeatherData numberToString st p w)) !! key = cache st !! key)
  /\ cacheSize (fst (fetchWeatherData numberToString st p w))
     = match cache st !! generateCacheKey numberToString p with
       | Some _ => cacheSize st
       | None => S (cacheSize st)
       end.
Proof.
  intros Hmiss Hr. rewrite (fetch_success st p w rows Hmiss Hr).
  cbn [fst cache]. unfold cacheSize. cbn [cache].
  split; [by rewrite lookup_insert_eq|]. split.
  - intros key Hne. by rewrite lookup_insert_ne.
  - rewrite map_size_insert.
    by destruct (cache st !! generateCacheKey numberToString p).
Qed.

(** The network is asked exactly when the cache holds no fresh entry under
    the key, and then exactly once: there is no retry after a failure. *)
Theorem one_request_iff_no_fresh_entry st p w :
  (requests (snd (fetchWeatherData numberToString st p w)) = []
   <-> exists e, cache st !! generateCacheKey numberToString p = Some e
                 /\ (now_at_lookup w - timestamp e < CACHE_DURATION)%Z)
  /\ (requests (snd (fetchWeatherData numberToString st p w)) = []
      \/ requests (snd (fetchWeatherData numberToString st p w))
         = [archiveRequest numberToString p]).
Proof.
  destruct (cacheHit st (generateCacheKey numberToString p) (now_at_lookup w))
    as [e|] eqn:Hhit.
  - rewrite (fetch_hit st p w e Hhit). cbn. split; [|by left].
    split; [|done]. intros _. exists e. by apply cacheHit_iff.
  - assert (Hreq : requests (snd (fetchWeatherData numberToString st p w))
                   = [archiveRequest numberToString p]).
    { unfold fetchWeatherData. rewrite Hhit. by destruct (receive (reply w)). }
    rewrite Hreq. split; [|by right]. split; [done|].
    intros (e & He & Hage).
    pose proof (stored_fresh_hit st _ _ e He Hage) as Hsome. congruence.
Qed.

(** After [clearCache] the cache is empty, nothing is left in storage, and
    the next call goes to the network whatever had been cached. *)
Theorem cleared_cache_refetches st p w :
  cacheSize (fst (fst (clearCache st))) = 0%nat
  /\ snd (fst (clearCache st)) = NoItem
  /\ requests (snd (fetchWeatherData numberToString (fst (fst (clearCache st))) p w))
     = [archiveRequest numberToString p].
Proof.
  split; [done|]. split; [done|].
  unfold fetchWeatherData, cacheHit. cbn [clearCache fst cache].
  rewrite lookup_empty. by destruct (receive (reply w)).
Qed.

(** Writing the cache to storage and loading it again at a time when every
    entry is still fresh gives back the same map. *)
Theorem load_after_save_restores (now : Z) st st0 :
  (forall (key : string) e,
     cache st !! key = Some e -> (now - timestamp e < CACHE_DURATION)%Z) ->
  cache (loadCache now (saveCache st) st0) = cache st.
Proof.
  intros Hfresh. unfold saveCache, loadCache. cbn [cache].
  apply map_filter_id. intros key e He. cbn [snd].
  unfold fresh. apply Z.ltb_lt. by eapply Hfresh.
Qed.

(** An entry that survives loading answers a call made at the same clock
    reading: its series is shown and no request is sent. *)
Theorem loaded_entry_answers (now : Z) (stored : gmap string CacheEntry) st p w e :
  cache (loadCache now (Parsed stored) st) !! generateCacheKey numberToString p
  = Some e ->
  now_at_lookup w = now ->
  stored !! generateCacheKey numberToString p = Some e
  /\ data (fst (fetchWeatherData numberToString
                  (loadCache now (Parsed stored) st) p w)) = entry_data e
  /\ requests (snd (fetchWeatherData numberToString
                      (loadCache now (Parsed stored) st) p w)) = [].
Proof.
  intros He Hnow.
  pose proof He as Hl. apply loadCache_lookup in Hl as [Hs Hage].
  split; [done|].
  rewrite (fetch_hit _ p w e); [by split|].
  apply stored_fresh_hit; [done|]. by rewrite Hnow.
Qed.


End CacheLife.

Section CacheLifeExamples.

Import UseWeatherData.

(** The round trip on the sample answer: stored at 1200, asked again ten
    minutes later with the provider down. *)
Lemma refetch_within_ttl_hits_sample :
  data (fst (fetchWeatherData Sample.printInteger
               (fst (fetchWeatherData Sample.printInteger Sample.empty
                       (Sample.query None) Sample.up))
               (Sample.query None) Sample.laterAndDown))
  = transform Sample.answer.
Proof.
  apply (refetch_within_ttl_hits Sample.printInteger Sample.empty (Sample.query None)
           Sample.up Sample.laterAndDown (transform Sample.answer)).
  - reflexivity.
  - reflexivity.
  - vm_compute. reflexivity.
Defined.

Lemma stored_fetch_touches_one_key_sample :
  cacheSize (fst (fetchWeatherData Sample.printInteger Sample.empty
                    (Sample.query None) Sample.up))
  = 1%nat.
Proof.
  apply (stored_fetch_touches_one_key Sample.printInteger Sample.empty
           (Sample.query None) Sample.up (transform Sample.answer));
    reflexivity.
Defined.

Lemma load_after_save_restores_sample :
  cache (loadCache 1000 (saveCache Sample.cached) Sample.empty) = cache Sample.cached.
Proof.
  apply (load_after_save_restores 1000 Sample.cached Sample.empty).
  intros key e He. unfold Sample.cached in He. cbn [cache] in He.
  apply lookup_singleton_Some in He as [_ <-]. vm_compute. reflexivity.
Defined.

Lemma loaded_entry_answers_sample :
  data (fst (fetchWeatherData Sample.printInteger
               (loadCache 1000 (saveCache Sample.cached) Sample.empty)
               (Sample.query None) Sample.up))
  = Sample.threeHours.
Proof.
  apply (loaded_entry_answers Sample.printInteger 1000 (cache Sample.cached)
           Sample.empty (Sample.query None) Sample.up Sample.storedEntry).
  - vm_compute. reflexivity.
  - reflexivity.
Defined.

End CacheLifeExamples.

(** ** Windows at and beyond the ends of the series (useWeatherData.ts) *)

Section WindowEdges.

Import UseWeatherData.

Local Open Scope Q_scope.

Implicit Types (series : list WeatherDataPoint) (field : Field) (c : list Coord).

(** The Range value of a point window, for any hour that is not negative. *)
Lemma point_window series field (h : Z) c :
  (0 <= h)%Z ->
  getPolygonAverage series c field h h = getValueAtTime series c field h.
Proof.
  intros Hh. unfold getPolygonAverage, getValueAtTime.
  destruct (Nat.eqb_spec (length series) 0) as [H0|Hne]; [done|].
  destruct (Z.ltb_spec h 0) as [?|_]; [lia|]. simpl.
  rewrite Z.max_r by lia.
  destruct (Z.geb_spec h (Z.of_nat (length series))) as [Hout|Hin].
  - by rewrite slice_past_end by lia.
  - rewrite Z.min_r by lia.
    destruct (lookup_lt_is_Some_2 series (Z.to_nat h)) as [p Hp]; [lia|].
    rewrite Hp, (slice_single _ _ _ Hh Hp). simpl.
    apply singleton_average.
Qed.

(** Instant mode reads the sample at the hour when the hour is inside the
    series and 0 when it is negative or past the end; the [time] field,
    which is not a number, reads 0 everywhere. *)
Theorem instant_value_is_sample series field (t : Z) c :
  (forall point,
     (0 <= t)%Z -> series !! Z.to_nat t = Some point ->
     getValueAtTime series c field t = Js.number_or_zero (get point field))
  /\ ((t < 0)%Z \/ (Z.of_nat (length series) <= t)%Z ->
      getValueAtTime series c field t = 0)
  /\ getValueAtTime series c time_key t = 0.
Proof.
  unfold getValueAtTime. split; [|split].
  - intros point Ht Hp. pose proof (lookup_lt_Some _ _ _ Hp) as Hlt.
    destruct (Nat.eqb_spec (length series) 0); [lia|].
    destruct (Z.ltb_spec t 0); [lia|].
    destruct (Z.geb_spec t (Z.of_nat (length series))); [lia|].
    simpl. by rewrite Hp.
  - intros Hout.
    destruct (Nat.eqb_spec (length series) 0); [done|].
    destruct (Z.ltb_spec t 0); [done|].
    destruct (Z.geb_spec t (Z.of_nat (length series))); [done|lia].
  - destruct (_ || _ || _); [done|].
    by destruct (series !! Z.to_nat t).
Qed.

(** A window that covers the series, whatever lies outside, averages the
    whole series: the start is raised to 0 and the end lowered to N-1. *)
Theorem covering_window_is_overall_mean series field (s e : Z) c :
  (s <= 0)%Z -> (Z.of_nat (length series) - 1 <= e)%Z ->
  getPolygonAverage series c field s e
  == Spec.mean (map (fun point => Js.number_or_zero (get point field)) series).
Proof.
  intros Hs He. unfold getPolygonAverage.
  destruct series as [|p0 rest]; [reflexivity|].
  set (series := p0 :: rest) in *.
  assert (Hn : (0 < length series)%nat) by (simpl; lia).
  destruct (Nat.eqb_spec (length series) 0) as [H0|_]; [lia|].
  rewrite Z.max_l, Z.min_l by lia.
  assert (Hall : Js.slice series 0 (Z.of_nat (length series) - 1 + 1) = series).
  { rewrite slice_nonneg by lia.
    rewrite Z.min_l, Z.min_l by lia. simpl drop. apply take_ge. lia. }
  rewrite Hall.
  destruct (Nat.eqb_spec (length series) 0) as [H0|_]; [lia|].
  rewrite reduce_total. unfold Spec.mean.
  pose proof (length_map (fun point => Js.number_or_zero (get point field)) series)
    as Hmap.
  destruct (map _ series) as [|x xs]; [simpl in Hmap; lia|].
  by rewrite Hmap.
Qed.

(** A negative end is not cut to an empty window: from -2 downwards it is
    counted from the end of the series, as [slice] does.  With [N] samples
    and [0 <= N + e], the window [(s, e)] with [s <= 0] and [e <= -2] gives
    the value of the window [(0, N + e)]. *)
Theorem negative_end_counts_from_the_end series field (s e : Z) c :
  (s <= 0)%Z -> (e <= -2)%Z -> (0 <= Z.of_nat (length series) + e)%Z ->
  getPolygonAverage series c field s e
  = getPolygonAverage series c field 0 (Z.of_nat (length series) + e).
Proof.
  intros Hs He Hn. unfold getPolygonAverage.
  destruct (Nat.eqb_spec (length series) 0) as [H0|_]; [done|].
  rewrite !Z.max_l by lia. rewrite !Z.min_r by lia.
  assert (Hsame : Js.slice series 0 (e + 1)
                  = Js.slice series 0 (Z.of_nat (length series) + e + 1)).
  { unfold Js.slice.
    destruct (Z.ltb_spec (e + 1) 0); [|lia].
    destruct (Z.ltb_spec (Z.of_nat (length series) + e + 1) 0); [lia|].
    simpl. f_equal. lia. }
  by rewrite Hsame.
Qed.

End WindowEdges.

Section WindowEdgeExamples.

Import UseWeatherData.

Local Open Scope Q_scope.

Lemma covering_window_is_overall_mean_sample :
  getPolygonAverage Sample.threeHours Sample.square temperature_2m_key (-5) 720
  == Spec.mean (map (fun point => Js.number_or_zero (get point temperature_2m_key))
                    Sample.threeHours).
Proof.
  apply (covering_window_is_overall_mean Sample.threeHours temperature_2m_key (-5) 720
           Sample.square); simpl; lia.
Defined.

(** On three samples the window [(-5, -2)] reads the first two: 14. *)
Lemma negative_end_counts_from_the_end_sample :
  getPolygonAverage Sample.threeHours Sample.square temperature_2m_key (-5) (-2)
  = getPolygonAverage Sample.threeHours Sample.square temperature_2m_key 0 1.
Proof.
  apply (negative_end_counts_from_the_end Sample.threeHours temperature_2m_key (-5) (-2)
           Sample.square); simpl; lia.
Defined.

End WindowEdgeExamples.

(** ** The page handlers (Index.tsx) *)

Section ListFacts.

Context {A : Type}.

Implicit Types (f : A -> bool) (l : list A).

Lemma filter_twice f l : List.filter f (List.filter f l) = List.filter f l.
Proof.
  induction l as [|x l IH]; [done|]. simpl.
  destruct (f x) eqn:Hx; [|done]. simpl. by rewrite Hx, IH.
Qed.

Lemma filter_all f l : (forall x, x ∈ l -> f x = true) -> List.filter f l = l.
Proof.
  induction l as [|x l IH]; intros Hall; [done|]. simpl.
  rewrite (Hall x) by left. f_equal. apply IH. intros y Hy. apply Hall. by right.
Qed.

Lemma filter_elem f l x : x ∈ List.filter f l <-> x ∈ l /\ f x = true.
Proof.
  rewrite !list_elem_of_In. apply filter_In.
Qed.


End ListFacts.

Section PageFacts.

Import UseWeatherData.

Local Open Scope Q_scope.

Implicit Types (st : Index.State) (ps : list Index.Polygon) (d : list WeatherDataPoint).

(** A pass overwrites what an earlier pass wrote: recoloring twice gives
    the result of the second pass alone, so a pass repeated with the same
    series and window changes nothing more. *)
Theorem last_pass_wins (f1 f2 : bool) d1 d2 (s1 e1 s2 e2 : Z) ps :
  Index.updatePolygonColors f2 d2 s2 e2 (Index.updatePolygonColors f1 d1 s1 e1 ps)
  = Index.updatePolygonColors f2 d2 s2 e2 ps.
Proof.
  unfold Index.updatePolygonColors. rewrite List.map_map.
  apply List.map_ext. intros polygon. reflexivity.
Qed.

(** A pass touches color and value only: ids, names, rings and assigned
    data sources come out as they went in, in the same order. *)
Theorem pass_keeps_identity (single : bool) d (s e : Z) ps :
  map Index.id (Index.updatePolygonColors single d s e ps) = map Index.id ps
  /\ map Index.name (Index.updatePolygonColors single d s e ps) = map Index.name ps
  /\ map Index.coordinates (Index.updatePolygonColors single d s e ps)
     = map Index.coordinates ps
  /\ map Index.dataSource (Index.updatePolygonColors single d s e ps)
     = map Index.dataSource ps.
Proof.
  unfold Index.updatePolygonColors. rewrite !List.map_map.
  repeat split; apply List.map_ext; intros polygon; reflexivity.
Qed.

(** After a pass every polygon on the page carries the same color and the
    same value: the value is read off the one series of the hook and does
    not depend on the polygon. *)
Theorem pass_gives_one_color (single : bool) d (s e : Z) ps (p q : Index.Polygon) :
  p ∈ Index.updatePolygonColors single d s e ps ->
  q ∈ Index.updatePolygonColors single d s e ps ->
  Index.color p = Index.color q /\ Index.value p = Index.value q.
Proof.
  unfold Index.updatePolygonColors. intros Hp Hq.
  apply list_elem_of_fmap in Hp as (p0 & -> & _).
  apply list_elem_of_fmap in Hq as (q0 & -> & _).
  unfold Index.recolor. cbn [Index.color Index.value].
  destruct single; split; reflexivity.
Qed.

(** Deleting is idempotent and complete: a second delete of the same id
    changes nothing, no polygon with the id is left on the page or in the
    selection, and deleting an id that is nowhere leaves the state as it
    is. *)
Theorem delete_is_idempotent st (target : string) :
  Index.handlePolygonDelete (Index.handlePolygonDelete st target) target
  = Index.handlePolygonDelete st target
  /\ (forall p, p ∈ Index.polygons (Index.handlePolygonDelete st target) ->
                Index.id p <> target)
  /\ (target ∉ Index.selectedPolygons (Index.handlePolygonDelete st target))
  /\ ((forall p, p ∈ Index.polygons st -> Index.id p <> target) ->
      target ∉ Index.selectedPolygons st ->
      Index.handlePolygonDelete st target = st).
Proof.
  unfold Index.handlePolygonDelete.
  cbn [Index.polygons Index.selectedPolygons Index.timeRange Index.isSingleTime].
  split; [by rewrite !filter_twice|]. split; [|split].
  - intros p Hp. apply filter_elem in Hp as [_ Hne].
    apply negb_true_iff, String.eqb_neq in Hne. done.
  - intros Hin. apply filter_elem in Hin as [_ Hne].
    by rewrite String.eqb_refl in Hne.
  - intros Hps Hsel. destruct st as [ps sel tr single]. cbn in *.
    rewrite !filter_all; [done| |].
    + intros pid Hpid. apply negb_true_iff, String.eqb_neq. by intros ->.
    + intros p Hp. apply negb_true_iff, String.eqb_neq. by apply Hps.
Qed.

(** Creating a polygon whose id is new to the page and then deleting that
    id gives back the state before the creation. *)
Theorem create_then_delete (getDateFromHour : Z -> string) st (polygon : Index.Polygon) :
  (forall p, p ∈ Index.polygons st -> Index.id p <> Index.id polygon) ->
  Index.id polygon ∉ Index.selectedPolygons st ->
  Index.handlePolygonDelete
    (fst (Index.handlePolygonCreate getDateFromHour st polygon)) (Index.id polygon)
  = st.
Proof.
  intros Hps Hsel. unfold Index.handlePolygonDelete, Index.handlePolygonCreate.
  destruct st as [ps sel tr single]. cbn in *.
  rewrite !List.filter_app. cbn [List.filter]. rewrite String.eqb_refl. cbn [negb].
  rewrite !app_nil_r, !filter_all; [done| |].
  - intros pid Hpid. apply negb_true_iff, String.eqb_neq. by intros ->.
  - intros p Hp. apply negb_true_iff, String.eqb_neq. by apply Hps.
Qed.

(** Assigning another data source to a polygon has no effect on coloring:
    the next pass gives every polygon the color and value it would have
    given without the assignment. *)
Theorem source_change_keeps_colors st (polygonId : string)
    (dataSource : DataSourceSidebar.DataSource) (single : bool) d (s e : Z) :
  map Index.color
      (Index.updatePolygonColors single d s e
         (Index.polygons (Page.handleDataSourceChange st polygonId dataSource)))
  = map Index.color (Index.updatePolygonColors single d s e (Index.polygons st))
  /\ map Index.value
         (Index.updatePolygonColors single d s e
            (Index.polygons (Page.handleDataSourceChange st polygonId dataSource)))
     = map Index.value (Index.updatePolygonColors single d s e (Index.polygons st)).
Proof.
  unfold Index.updatePolygonColors, Page.handleDataSourceChange, Page.withPolygons.
  cbn [Index.polygons]. rewrite !List.map_map.
  split; apply List.map_ext; intros polygon;
    destruct (String.eqb (Index.id polygon) polygonId); reflexivity.
Qed.

(** A single-hour change recolors with the mode flag its closure saw, not
    the one it has just set; for an hour that is not negative this makes no
    difference, because the average over the window [(hour, hour)] is the
    sample at [hour]. *)
Theorem single_time_change_ignores_seen_mode (b1 b2 : bool) d st (hour : Z) :
  (0 <= hour)%Z ->
  Page.handleSingleTimeChange {| Page.seenSingleTime := b1; Page.seenData := d |} st hour
  = Page.handleSingleTimeChange {| Page.seenSingleTime := b2; Page.seenData := d |} st hour.
Proof.
  intros Hh. unfold Page.handleSingleTimeChange.
  cbn [Page.seenSingleTime Page.seenData]. f_equal.
  unfold Index.updatePolygonColors. apply List.map_ext. intros polygon.
  unfold Index.recolor.
  rewrite (point_window d temperature_2m_key hour (Index.coordinates polygon) Hh).
  by destruct b1, b2.
Qed.


End PageFacts.

Section PageExamples.

Import UseWeatherData.

Lemma pass_gives_one_color_sample :
  Index.color (Index.recolor false Sample.threeHours 0 2 Sample.humid)
  = Index.color (Index.recolor false Sample.threeHours 0 2 (Sample.plain "a")).
Proof.
  apply (pass_gives_one_color false Sample.threeHours 0 2
           [Sample.humid; Sample.plain "a"]).
  - left.
  - right. left.
Defined.

Lemma create_then_delete_sample :
  Index.handlePolygonDelete
    (fst (Index.handlePolygonCreate Sample.noDates Sample.page (Sample.plain "a")))
    (Index.id (Sample.plain "a"))
  = Sample.page.
Proof.
  apply (create_then_delete Sample.noDates Sample.page (Sample.plain "a")).
  - intros p Hp. apply list_elem_of_singleton in Hp as ->. discriminate.
  - apply not_elem_of_nil.
Defined.

Lemma single_time_change_ignores_seen_mode_sample :
  Page.handleSingleTimeChange
    {| Page.seenSingleTime := true; Page.seenData := Sample.threeHours |} Sample.page 1
  = Page.handleSingleTimeChange
      {| Page.seenSingleTime := false; Page.seenData := Sample.threeHours |} Sample.page 1.
Proof.
  apply (single_time_change_ignores_seen_mode true false Sample.threeHours Sample.page 1).
  lia.
Defined.


End PageExamples.

(** ** Rows of the sidebar (DataSourceSidebar.tsx) *)

Section SidebarRows.

Import DataSourceSidebar.

Implicit Types (st : State).

(** Filtering out one index is deleting at that index. *)
Lemma filter_from_delete {A} (l : list A) (k index : nat) :
  Js.filter_from (fun _ i => negb (i =? index)%nat) k l
  = if decide (k <= index)%nat then delete (index - k)%nat l else l.
Proof.
  revert k. induction l as [|x l IH]; intros k.
  - simpl. by case_decide.
  - cbn [Js.filter_from]. rewrite IH.
    destruct (Nat.eqb_spec k index) as [->|Hne]; cbn [negb].
    + rewrite decide_False by lia. rewrite decide_True by lia.
      by rewrite Nat.sub_diag.
    + destruct (decide (k <= index)%nat) as [Hle|Hgt].
      * rewrite decide_True by lia.
        replace (index - k)%nat with (S (index - S k)) by lia. done.
      * by rewrite decide_False by lia.
Qed.

(** [removeDataSource] takes out exactly the row at the index: the rows
    before it stay, the rows after it move up by one, and an index past
    the last row removes nothing.  It always closes the editor and never
    touches the catalog. *)
Theorem remove_deletes_the_row st (index : nat) :
  activeDataSources (removeDataSource st index)
  = take index (activeDataSources st) ++ drop (S index) (activeDataSources st)
  /\ ((length (activeDataSources st) <= index)%nat ->
      activeDataSources (removeDataSource st index) = activeDataSources st)
  /\ editingIndex (removeDataSource st index) = None
  /\ catalog (removeDataSource st index) = catalog st.
Proof.
  unfold removeDataSource, Js.filteri.
  cbn [activeDataSources editingIndex catalog].
  rewrite filter_from_delete, decide_True, Nat.sub_0_r by lia.
  rewrite delete_take_drop.
  split; [done|]. split; [|done].
  intros Hout. rewrite take_ge, drop_ge by lia. by rewrite app_nil_r.
Qed.

(** [addDataSource] appends a copy of a catalog entry whose id no row
    carries yet, switched on; it never repeats an id that is already
    active, and with three rows or nothing left to add it does nothing. *)
Theorem add_keeps_ids_distinct st :
  NoDup (map id (activeDataSources st)) ->
  NoDup (map id (activeDataSources (addDataSource st)))
  /\ (addDataSource st = st
      \/ exists entry,
           entry ∈ catalog st
           /\ (id entry ∉ map id (activeDataSources st))
           /\ activeDataSources (addDataSource st)
              = activeDataSources st ++ [activate entry true]).
Proof.
  intros Hnd. unfold addDataSource.
  destruct (length (activeDataSources st) <? 3)%nat; [|by split; [|left]].
  destruct (List.find _ (catalog st)) as [entry|] eqn:Hfind; [|by split; [|left]].
  apply find_some in Hfind as [Hin Hnew].
  apply negb_true_iff in Hnew.
  assert (Hfresh : id entry ∉ map id (activeDataSources st)).
  { intros Hdup. change (map id ?l) with (id <$> l) in Hdup.
    apply list_elem_of_fmap in Hdup as (row & Hid & Hrow).
    assert (Hex : existsb (fun active => String.eqb (id active) (id entry))
                          (activeDataSources st) = true).
    { apply existsb_exists. exists row. split; [by apply list_elem_of_In|].
      rewrite Hid. apply String.eqb_refl. }
    congruence. }
  cbn [withActive activeDataSources]. split.
  - rewrite map_app. apply NoDup_app. split; [done|]. split.
    + intros x Hx Hx'. cbn in Hx'. apply list_elem_of_singleton in Hx' as ->.
      by apply Hfresh.
    + cbn. apply NoDup_singleton.
  - right. exists entry. split; [by apply list_elem_of_In|]. by split.
Qed.

(** The entry with a given id after a threshold write. *)
Lemma find_writeThrough (target key : string) (level : Level) (e : Edit)
    (l : list DataSource) :
  List.find (fun s => String.eqb (id s) key) (writeThrough target level e l)
  = match List.find (fun s => String.eqb (id s) key) l with
    | Some ds =>
        Some (if String.eqb (id ds) target
              then {| id := id ds; name := name ds; field := field ds; unit := unit ds;
                      description := description ds;
                      thresholds := editLevel level e (thresholds ds);
                      isActive := isActive ds |}
              else ds)
    | None => None
    end.
Proof.
  unfold writeThrough. induction l as [|ds l IH]; [done|].
  cbn [map List.find].
  destruct (String.eqb (id ds) target) eqn:Ht; cbn [id];
    destruct (String.eqb (id ds) key) eqn:Hk;
    [by rewrite ?Ht | exact IH | by rewrite ?Ht | exact IH].
Qed.

(** A threshold edited through a row is edited in the catalog too: the
    row's threshold object is the catalog entry's.  After
    [updateThreshold] the catalog entry with the row's id carries the
    edited thresholds, and entries with other ids are as before. *)
Theorem edit_reaches_catalog st (index : nat) (level : Level) (e : Edit)
    (row entry : DataSource) :
  activeDataSources st !! index = Some row ->
  List.find (fun s => String.eqb (id s) (id row)) (catalog st) = Some entry ->
  List.find (fun s => String.eqb (id s) (id row))
            (catalog (updateThreshold st index level e))
  = Some {| id := id entry; name := name entry; field := field entry;
            unit := unit entry; description := description entry;
            thresholds := editLevel level e (thresholds entry);
            isActive := isActive entry |}
  /\ (forall key : string,
        key <> id row ->
        List.find (fun s => String.eqb (id s) key)
                  (catalog (updateThreshold st index level e))
        = List.find (fun s => String.eqb (id s) key) (catalog st)).
Proof.
  intros Hrow Hentry. unfold updateThreshold. rewrite Hrow. cbn [catalog].
  split.
  - rewrite find_writeThrough, Hentry.
    apply find_some in Hentry as [_ Hid]. by rewrite Hid.
  - intros key Hne. rewrite find_writeThrough.
    destruct (List.find (fun s => String.eqb (id s) key) (catalog st))
      as [ds|] eqn:Hfind; [|done].
    apply find_some in Hfind as [_ Hid]. apply String.eqb_eq in Hid.
    destruct (String.eqb_spec (id ds) (id row)); [congruence|done].
Qed.

End SidebarRows.

Section SidebarRowExamples.

Import DataSourceSidebar.

Lemma add_keeps_ids_distinct_initial :
  NoDup (map id (activeDataSources (addDataSource initialState))).
Proof.
  apply (add_keeps_ids_distinct initialState).
  apply NoDup_singleton.
Defined.

(** Setting the low temperature threshold to 12 on the first row changes
    the catalog's temperature entry. *)
Lemma edit_reaches_catalog_initial :
  List.find (fun s => String.eqb (id s) "temperature_2m")
            (catalog (updateThreshold initialState 0 Low (SetValue 12)))
  = Some {| id := "temperature_2m"; name := "Temperature"; field := "temperature_2m";
            unit := "°C"; description := "Air temperature at 2 meters above ground";
            thresholds :=
              {| low := {| value := 12; color := "#22c55e"; operator := "<";
                           label := "Cold" |};
                 medium := {| value := 25; color := "#f59e0b"; operator := "<";
                              label := "Moderate" |};
                 high := {| value := 25; color := "#ef4444"; operator := ">=";
                            label := "Hot" |} |};
            isActive := true |}.
Proof.
  apply (edit_reaches_catalog initialState 0 Low (SetValue 12)
           {| id := "temperature_2m"; name := "Temperature"; field := "temperature_2m";
              unit := "°C"; description := "Air temperature at 2 meters above ground";
              thresholds :=
                {| low := {| value := 10; color := "#22c55e"; operator := "<";
                             label := "Cold" |};
                   medium := {| value := 25; color := "#f59e0b"; operator := "<";
                                label := "Moderate" |};
                   high := {| value := 25; color := "#ef4444"; operator := ">=";
                              label := "Hot" |} |};
              isActive := true |}
           {| id := "temperature_2m"; name := "Temperature"; field := "temperature_2m";
              unit := "°C"; description := "Air temperature at 2 meters above ground";
              thresholds :=
                {| low := {| value := 10; color := "#22c55e"; operator := "<";
                             label := "Cold" |};
                   medium := {| value := 25; color := "#f59e0b"; operator := "<";
                                label := "Moderate" |};
                   high := {| value := 25; color := "#ef4444"; operator := ">=";
                              label := "Hot" |} |};
              isActive := true |});
    reflexivity.
Defined.

End SidebarRowExamples.

(** ** Drawing sessions (MapView.tsx) *)

Section DrawingSessions.

Import UseWeatherData.

Implicit Types (view : MapView.State) (polygons : list Index.Polygon)
  (points : list Coord).

(** The polygon [finishDrawing] hands over when it has enough points. *)
Lemma finish_enough polygons (now : Z) view :
  (3 <= length (MapView.currentPolygon view))%nat ->
  MapView.created (snd (MapView.finishDrawing polygons now view))
  = [ {| Index.id := "polygon-" +:+ pretty now;
         Index.name :=
           if String.eqb (MapView.newPolygonName view) ""
           then "Region " +:+ pretty (length polygons + 1)%nat
           else MapView.newPolygonName view;
         Index.coordinates :=
           MapView.currentPolygon view ++ take 1 (MapView.currentPolygon view);
         Index.dataSource := "temperature_2m";
         Index.color := "#8b5cf6";
         Index.value := None |} ].
Proof.
  intros Hn. unfold MapView.finishDrawing.
  destruct (Nat.ltb_spec (length (MapView.currentPolygon view)) 3); [lia|].
  cbn [snd]. by destruct (MapView.drawingLayer view).
Qed.

(** For any number of pending points from three up, [finishDrawing] hands
    over exactly one polygon: its ring is the pending points followed by
    the first of them, so it has one vertex more and is closed; its name is
    the draft, or ["Region k+1"] on a page of [k] polygons when the draft is
    empty; it is assigned to temperature and has no value yet.  The view is
    idle afterwards, without pending points and with an empty draft. *)
Theorem finish_closes_any_ring polygons (now : Z) view :
  (3 <= length (MapView.currentPolygon view))%nat ->
  exists polygon,
    MapView.created (snd (MapView.finishDrawing polygons now view)) = [polygon]
    /\ Index.coordinates polygon
       = MapView.currentPolygon view ++ take 1 (MapView.currentPolygon view)
    /\ length (Index.coordinates polygon) = S (length (MapView.currentPolygon view))
    /\ (exists vertex, head (Index.coordinates polygon) = Some vertex
                       /\ last (Index.coordinates polygon) = Some vertex)
    /\ Index.name polygon
       = (if String.eqb (MapView.newPolygonName view) ""
          then "Region " +:+ pretty (length polygons + 1)%nat
          else MapView.newPolygonName view)
    /\ Index.dataSource polygon = "temperature_2m"
    /\ Index.value polygon = None
    /\ MapView.isDrawing (fst (MapView.finishDrawing polygons now view)) = false
    /\ MapView.currentPolygon (fst (MapView.finishDrawing polygons now view)) = []
    /\ MapView.newPolygonName (fst (MapView.finishDrawing polygons now view)) = "".
Proof.
  intros Hn. eexists. split; [by apply finish_enough|].
  cbn [Index.coordinates Index.name Index.dataSource Index.value].
  unfold MapView.finishDrawing.
  destruct (Nat.ltb_spec (length (MapView.currentPolygon view)) 3); [lia|].
  cbn [fst MapView.isDrawing MapView.currentPolygon MapView.newPolygonName].
  destruct (MapView.currentPolygon view) as [|a rest]; [simpl in Hn; lia|].
  cbn [take]. split; [done|]. split.
  { rewrite length_app. simpl. lia. }
  split; [|done].
  exists a. split; [done|].
  apply (last_snoc a (a :: rest)).
Qed.


(** Polygon ids are the clock reading in decimal behind ["polygon-"]: two
    polygons get the same id exactly when they are finished at the same
    millisecond. *)
Theorem polygon_ids_follow_the_clock polygons1 polygons2 (now1 now2 : Z) view1 view2
    (p1 p2 : Index.Polygon) :
  MapView.created (snd (MapView.finishDrawing polygons1 now1 view1)) = [p1] ->
  MapView.created (snd (MapView.finishDrawing polygons2 now2 view2)) = [p2] ->
  (Index.id p1 = Index.id p2 <-> now1 = now2).
Proof.
  intros H1 H2.
  assert (Hid : forall polygons now view p,
             MapView.created (snd (MapView.finishDrawing polygons now view)) = [p] ->
             Index.id p = "polygon-" +:+ pretty now).
  { intros polygons now view p Hp.
    destruct (Nat.lt_ge_cases (length (MapView.currentPolygon view)) 3) as [Hlt|Hge].
    - unfold MapView.finishDrawing in Hp.
      destruct (Nat.ltb_spec (length (MapView.currentPolygon view)) 3); [|lia].
      discriminate Hp.
    - rewrite (finish_enough polygons now view Hge) in Hp.
      by injection Hp as <-. }
  rewrite (Hid _ _ _ _ H1), (Hid _ _ _ _ H2). split.
  - intros Heq. apply String.app_inj in Heq. by apply (inj pretty) in Heq.
  - by intros ->.
Qed.

(** The Delete button with a selection that is not the empty string
    removes every polygon with the selected id from the page and from the
    page's selection and clears the view's selection; without a selection,
    or with the empty string selected, it does nothing. *)
Theorem delete_selected_removes (page : Index.State) view :
  (forall target,
     MapView.selectedPolygon view = Some target ->
     target <> "" ->
     (forall p, p ∈ Index.polygons (fst (Session.clickDelete page view)) ->
                Index.id p <> target)
     /\ (target ∉ Index.selectedPolygons (fst (Session.clickDelete page view)))
     /\ MapView.selectedPolygon (snd (Session.clickDelete page view)) = None)
  /\ (MapView.selectedPolygon view = None \/ MapView.selectedPolygon view = Some "" ->
      Session.clickDelete page view = (page, view)).
Proof.
  unfold Session.clickDelete, MapView.deleteSelectedPolygon. split.
  - intros target Hsel Htruthy. rewrite Hsel.
    destruct (String.eqb_spec target ""); [done|].
    cbn [foldl fst snd MapView.selectedPolygon].
    unfold Index.handlePolygonDelete.
    cbn [Index.polygons Index.selectedPolygons].
    split; [|split; [|done]].
    + intros p Hp. apply filter_elem in Hp as [_ Hne].
      by apply negb_true_iff, String.eqb_neq in Hne.
    + intros Hin. apply filter_elem in Hin as [_ Hne].
      by rewrite String.eqb_refl in Hne.
  - by intros [-> | ->].
Qed.

End DrawingSessions.

Section DrawingSessionExamples.

Import UseWeatherData.

Lemma finish_closes_any_ring_square :
  exists polygon,
    MapView.created
      (snd (MapView.finishDrawing [] 1700000000000
              (Sample.drawing (take 4 Sample.square))))
    = [polygon].
Proof.
  destruct (finish_closes_any_ring [] 1700000000000
              (Sample.drawing (take 4 Sample.square))) as (polygon & Hc & _).
  - simpl. lia.
  - by exists polygon.
Defined.

(** Finished at clock readings 1 and 2, two triangles get different ids. *)
Lemma polygon_ids_follow_the_clock_sample :
  "polygon-" +:+ pretty 1%Z = "polygon-" +:+ pretty 2%Z <-> 1%Z = 2%Z.
Proof.
  exact (polygon_ids_follow_the_clock [] [] 1 2 (Sample.drawing Sample.triangle)
           (Sample.drawing Sample.triangle) _ _ eq_refl eq_refl).
Defined.

End DrawingSessionExamples.

(** ** Skipping and the end of playback (TimelineSlider.tsx) *)

Section Skipping.

Import TimelineSlider.

Local Open Scope Z_scope.

Implicit Types (st : State).

(** The skip buttons keep the slider ordered and inside [0 .. 720], and
    each end is moved or cut on its own.  Going back, the start moves by 24
    when it is at least 24 and is put to 0 otherwise, and the end moves by
    24 when it is at least 48 and is put to 24 otherwise; going forward,
    the start moves by 24 when it is at most 672 and is put to 696
    otherwise, and the end moves by 24 when it is at most 696 and is put to
    720 otherwise.  So both ends move by 24 exactly when [24 <= start] and
    [48 <= end] (back) or [start <= 672] and [end <= 696] (forward).  In
    single-point mode the hour moves by 24 or is put to 0, or to 720.  The
    value of the other mode is left alone. *)
Theorem skips_move_or_cut_each_end st :
  inHorizon st ->
  inHorizon (handleSkipBack st)
  /\ inHorizon (handleSkipForward st)
  /\ (isRangeMode st = true ->
      fst (rangeValue (handleSkipBack st))
      = (if 24 <=? fst (rangeValue st) then fst (rangeValue st) - 24 else 0)
      /\ snd (rangeValue (handleSkipBack st))
         = (if 48 <=? snd (rangeValue st) then snd (rangeValue st) - 24 else 24)
      /\ fst (rangeValue (handleSkipForward st))
         = (if fst (rangeValue st) <=? 672 then fst (rangeValue st) + 24 else 696)
      /\ snd (rangeValue (handleSkipForward st))
         = (if snd (rangeValue st) <=? 696 then snd (rangeValue st) + 24 else 720)
      /\ (rangeValue (handleSkipBack st)
          = (fst (rangeValue st) - 24, snd (rangeValue st) - 24)
          <-> 24 <= fst (rangeValue st) /\ 48 <= snd (rangeValue st))
      /\ (rangeValue (handleSkipForward st)
          = (fst (rangeValue st) + 24, snd (rangeValue st) + 24)
          <-> fst (rangeValue st) <= 672 /\ snd (rangeValue st) <= 696)
      /\ currentValue (handleSkipBack st) = currentValue st
      /\ currentValue (handleSkipForward st) = currentValue st)
  /\ (isRangeMode st = false ->
      currentValue (handleSkipBack st)
      = (if 24 <=? currentValue st then currentValue st - 24 else 0)
      /\ currentValue (handleSkipForward st)
         = (if currentValue st <=? 696 then currentValue st + 24 else 720)
      /\ rangeValue (handleSkipBack st) = rangeValue st
      /\ rangeValue (handleSkipForward st) = rangeValue st).
Proof.
  intros (Hc & Hr & Hmax). unfold inHorizon, handleSkipBack, handleSkipForward, maxHours in *.
  destruct (rangeValue st) as [s e] eqn:Hrv. cbn [fst snd] in *.
  split; [|split; [|split]].
  - destruct (isRangeMode st); cbn [currentValue rangeValue fst snd]; rewrite ?Hrv;
      cbn [fst snd]; lia.
  - destruct (isRangeMode st); cbn [currentValue rangeValue fst snd]; rewrite ?Hrv;
      cbn [fst snd]; lia.
  - intros ->. cbn [rangeValue currentValue fst snd]. rewrite ?Hrv. cbn [fst snd].
    destruct (Z.leb_spec 24 s), (Z.leb_spec 48 e), (Z.leb_spec s 672), (Z.leb_spec e 696);
      repeat split; intros; try lia; try (f_equal; lia);
      match goal with H : (_, _) = (_, _) |- _ => injection H as ? ?; lia end.
  - intros ->. cbn [rangeValue currentValue]. rewrite ?Hrv.
    destruct (Z.leb_spec 24 (currentValue st)), (Z.leb_spec (currentValue st) 696);
      repeat split; lia.
Qed.

(** Forward and then back is a round trip wherever both skips fit: in
    range mode for a window with [start <= 672] and [24 <= end <= 696], in
    single-point mode for an hour up to 696. *)
Theorem skip_forward_then_back st :
  inHorizon st ->
  (if isRangeMode st
   then fst (rangeValue st) <= 672 /\ 24 <= snd (rangeValue st) <= 696
   else currentValue st <= 696) ->
  handleSkipBack (handleSkipForward st) = st.
Proof.
  intros (Hc & Hr & Hmax) Hfit. unfold handleSkipBack, handleSkipForward, maxHours.
  destruct st as [mode playing h [s e] speed]. cbn in *.
  destruct mode; cbn; f_equal; try f_equal; lia.
Qed.

(** Once paused, timer periods change nothing. *)
Lemma paused_stays (n : nat) st : isPlaying st = false -> playbackN n st = st.
Proof.
  intros Hp. unfold playbackN. induction n as [|n IH]; [done|].
  rewrite Nat.iter_succ, IH. unfold playback. by rewrite Hp.
Qed.

(** A playing window whose end is [k] hours before 719 is paused after
    [k + 1] ticks, moved forward by [k] hours. *)
Lemma range_runs_out (k : nat) st :
  isRangeMode st = true -> isPlaying st = true ->
  fst (rangeValue st) <= snd (rangeValue st) ->
  snd (rangeValue st) = 719 - Z.of_nat k ->
  playbackN (S k) st
  = {| isRangeMode := true; isPlaying := false; currentValue := currentValue st;
       rangeValue := (fst (rangeValue st) + Z.of_nat k, 719);
       playSpeed := playSpeed st |}.
Proof.
  revert st. induction k as [|k IH]; intros st Hmode Hplay Hord He.
  - unfold playbackN. cbn [Nat.iter nat_rect]. unfold playback, tick, maxHours.
    rewrite Hplay, Hmode. destruct (rangeValue st) as [s e]. cbn [fst snd] in *.
    subst e. cbn. f_equal. f_equal. lia.
  - unfold playbackN in *. rewrite Nat.iter_succ_r.
    assert (Hstep : playback st
                    = {| isRangeMode := true; isPlaying := true;
                         currentValue := currentValue st;
                         rangeValue := (fst (rangeValue st) + 1, snd (rangeValue st) + 1);
                         playSpeed := playSpeed st |}).
    { unfold playback, tick, maxHours. rewrite Hplay, Hmode.
      destruct (rangeValue st) as [s e]. cbn [fst snd] in *.
      rewrite (Z.min_l (e + 1)) by lia.
      destruct (Z.geb_spec (e + 1) 720); [lia|].
      f_equal. f_equal. lia. }
    rewrite Hstep, IH; cbn [isRangeMode isPlaying rangeValue currentValue playSpeed fst snd];
      try done; try lia.
    f_equal. f_equal. lia.
Qed.

(** The same for a playing hour in single-point mode. *)
Lemma instant_runs_out (k : nat) st :
  isRangeMode st = false -> isPlaying st = true ->
  currentValue st = 719 - Z.of_nat k ->
  playbackN (S k) st
  = {| isRangeMode := false; isPlaying := false; currentValue := 719;
       rangeValue := rangeValue st; playSpeed := playSpeed st |}.
Proof.
  revert st. induction k as [|k IH]; intros st Hmode Hplay He.
  - unfold playbackN. cbn [Nat.iter nat_rect]. unfold playback, tick, maxHours.
    rewrite Hplay, Hmode, He. cbn. done.
  - unfold playbackN in *. rewrite Nat.iter_succ_r.
    assert (Hstep : playback st
                    = {| isRangeMode := false; isPlaying := true;
                         currentValue := currentValue st + 1;
                         rangeValue := rangeValue st;
                         playSpeed := playSpeed st |}).
    { unfold playback, tick, maxHours. rewrite Hplay, Hmode.
      rewrite Z.min_l by lia.
      destruct (Z.geb_spec (currentValue st + 1) 720); [lia|].
      done. }
    rewrite Hstep, IH; cbn [isRangeMode isPlaying rangeValue currentValue playSpeed];
      try done; lia.
Qed.

(** Playback always runs out.  A playing slider whose advancing edge is at
    [e <= 719] is paused after [720 - e] ticks and stays so: in range mode
    the window has then moved forward by [719 - e] hours, keeping its
    width, with its end at 719; in single-point mode the hour is 719.  No
    later tick changes anything. *)
Theorem playback_runs_out st (n : nat) :
  isPlaying st = true -> inHorizon st ->
  (isRangeMode st = true ->
   snd (rangeValue st) <= 719 ->
   (Z.to_nat (720 - snd (rangeValue st)) <= n)%nat ->
   playbackN n st
   = {| isRangeMode := true; isPlaying := false; currentValue := currentValue st;
        rangeValue := (fst (rangeValue st) + (719 - snd (rangeValue st)), 719);
        playSpeed := playSpeed st |})
  /\ (isRangeMode st = false ->
      currentValue st <= 719 ->
      (Z.to_nat (720 - currentValue st) <= n)%nat ->
      playbackN n st
      = {| isRangeMode := false; isPlaying := false; currentValue := 719;
           rangeValue := rangeValue st; playSpeed := playSpeed st |}).
Proof.
  intros Hplay (Hc & Hr & Hmax). split.
  - intros Hmode He Hn.
    set (k := Z.to_nat (719 - snd (rangeValue st))).
    replace n with ((n - S k) + S k)%nat by lia.
    unfold playbackN. rewrite Nat.iter_add.
    change (Nat.iter (S k) playback st) with (playbackN (S k) st).
    rewrite (range_runs_out k st Hmode Hplay) by lia.
    change (Nat.iter (n - S k) playback ?x) with (playbackN (n - S k) x).
    rewrite paused_stays by done.
    f_equal. f_equal. lia.
  - intros Hmode He Hn.
    set (k := Z.to_nat (719 - currentValue st)).
    replace n with ((n - S k) + S k)%nat by lia.
    unfold playbackN. rewrite Nat.iter_add.
    change (Nat.iter (S k) playback st) with (playbackN (S k) st).
    rewrite (instant_runs_out k st Hmode Hplay) by lia.
    change (Nat.iter (n - S k) playback ?x) with (playbackN (n - S k) x).
    by rewrite paused_stays.
Qed.

(** The samples use a playing 24-hour window ending at hour 400. *)
Lemma skips_move_or_cut_each_end_sample :
  rangeValue (handleSkipBack (Sample.playing true 400)) = (352, 376).
Proof.
  destruct (skips_move_or_cut_each_end (Sample.playing true 400)) as (_ & _ & Hrange & _).
  - unfold inHorizon, maxHours. simpl. lia.
  - destruct (Hrange eq_refl) as (_ & _ & _ & _ & Hback & _).
    apply Hback. simpl. lia.
Defined.

Lemma skip_forward_then_back_sample :
  handleSkipBack (handleSkipForward (Sample.playing true 400)) = Sample.playing true 400.
Proof.
  apply (skip_forward_then_back (Sample.playing true 400)).
  - unfold inHorizon, maxHours. simpl. lia.
  - simpl. lia.
Defined.

(** The window [(376, 400)] is paused at [(695, 719)] after 320 ticks. *)
Lemma playback_runs_out_sample :
  playbackN 320 (Sample.playing true 400)
  = {| isRangeMode := true; isPlaying := false; currentValue := 400;
       rangeValue := (695, 719); playSpeed := 1000 |}.
Proof.
  destruct (playback_runs_out (Sample.playing true 400) 320) as [Hrange _].
  - reflexivity.
  - unfold inHorizon, maxHours. simpl. lia.
  - apply Hrange; [reflexivity|simpl; lia|simpl; lia].
Defined.

End Skipping.

(** ** The metrics reducer (DashboardMetrics.tsx) *)

Section Reducer.

Import DashboardMetrics.

Implicit Types (state : DashboardState).

(** What a run of increments keeps. *)
Lemma increments_keep state (n : nat) :
  polygonCount (dispatchAll state (replicate n INCREMENT_POLYGONS))
  = (polygonCount state + n)%nat
  /\ map id (metrics (dispatchAll state (replicate n INCREMENT_POLYGONS)))
     = map id (metrics state)
  /\ selectedDatasets (dispatchAll state (replicate n INCREMENT_POLYGONS))
     = selectedDatasets state.
Proof.
  unfold dispatchAll. revert state. induction n as [|n IH]; intros state.
  - cbn. by rewrite Nat.add_0_r.
  - cbn [replicate foldl].
    destruct (IH (dashboardReducer state INCREMENT_POLYGONS)) as (Hc & Hm & Hs).
    rewrite Hc, Hm, Hs. cbn [dashboardReducer polygonCount metrics selectedDatasets].
    split; [lia|]. split; [|done].
    rewrite List.map_map. apply List.map_ext. intros metric.
    by destruct (String.eqb (id metric) "total-regions").
Qed.

(** [n] increments raise the polygon count by [n]; from the first one on,
    every metric with id ["total-regions"] shows the count in decimal and
    ["+count"] as its change.  The other metrics, the order of the metrics
    and the selected datasets are untouched. *)
Theorem increments_show_the_count state (n : nat) :
  polygonCount (dispatchAll state (replicate n INCREMENT_POLYGONS))
  = (polygonCount state + n)%nat
  /\ map id (metrics (dispatchAll state (replicate n INCREMENT_POLYGONS)))
     = map id (metrics state)
  /\ selectedDatasets (dispatchAll state (replicate n INCREMENT_POLYGONS))
     = selectedDatasets state
  /\ ((0 < n)%nat ->
      forall metric,
        metric ∈ metrics (dispatchAll state (replicate n INCREMENT_POLYGONS)) ->
        id metric = "total-regions" ->
        value metric = pretty (polygonCount state + n)%nat
        /\ change metric = "+" +:+ pretty (polygonCount state + n)%nat).
Proof.
  destruct (increments_keep state n) as (Hc & Hm & Hs).
  split; [done|]. split; [done|]. split; [done|].
  intros Hn metric Hin Hid.
  destruct n as [|n]; [lia|]. clear Hc Hm Hs Hn.
  rewrite replicate_S_end in Hin. unfold dispatchAll in Hin.
  rewrite foldl_app in Hin. cbn [foldl] in Hin.
  fold (dispatchAll state (replicate n INCREMENT_POLYGONS)) in Hin.
  destruct (increments_keep state n) as (Hc & _ & _).
  cbn [dashboardReducer metrics] in Hin. rewrite Hc in Hin.
  apply list_elem_of_fmap in Hin as (m0 & -> & _).
  replace (polygonCount state + S n)%nat with (polygonCount state + n + 1)%nat by lia.
  destruct (String.eqb_spec (id m0) "total-regions") as [_|Hne]; [done|].
  by destruct Hne.
Qed.


End Reducer.
